(** * The plan execution engine of the agno service

    A shallow embedding of
      - [app/models.py]                    (the pydantic models),
      - [app/clients/windmill_client.py]   (the remote-job client),
      - [app/agents/executor.py]           (the step scheduler),
    followed by the properties of the engine.

    Python values are kept as the code has them: [int] is [Z], [str] is
    [string], [Dict[str, Any]] is [gmap string Any], [Dict[int, Any]] is
    [gmap Z Any], [Optional[str]] is [option string].  [None] is a value of
    [Any], so a field of type [Optional[Any]] is an [Any].

    The coroutines talk to the outside through three suspension points only:
    an HTTP request, [asyncio.sleep] and reading a clock.  They are modelled
    by explicit state passing over a [World]: the event-loop clock, the
    number of requests served so far, and the backend that answers them. *)

From Stdlib Require Import QArith Lqa.
From stdpp Require Import gmap strings list fin_maps pretty.

Set Warnings "-register-all".
Open Scope Z_scope.

(** ** Python values *)

(** The JSON-shaped part of Python's [Any]: what a request body, a decoded
    response body and a step result can hold. *)
Inductive Any : Type :=
| PyNone
| PyBool (b : bool)
| PyInt (n : Z)
| PyStr (s : string)
| PyList (l : list Any)
| PyDict (d : gmap string Any).

(** [str(n)] for a Python [int]: decimal digits, with a leading minus sign. *)
Definition str_int (n : Z) : string := pretty n.

(** Truthiness of an [Optional[str]]: [None] and the empty string are falsy. *)
Definition truthy (o : option string) : bool :=
  match o with
  | Some s => negb (String.eqb s "")
  | None => false
  end.

(** [o or default] for an [Optional[str]]. *)
Definition or_else (o : option string) (default : string) : string :=
  match o with
  | Some s => if String.eqb s "" then default else s
  | None => default
  end.

(** [k in d] for a dict. *)
Definition contains `{Countable K} {V : Type} (d : gmap K V) (k : K) : bool :=
  match d !! k with
  | Some _ => true
  | None => false
  end.

(** [int(x)] for a float [x]: truncation towards zero.  The model computes
    on exact rationals where Python rounds to doubles, so a value of the
    model and the program's can differ in the last millisecond. *)
Definition int_of (x : Q) : Z := Z.quot (Qnum x) (Zpos (Qden x)).

(** [s.strip(c)] for a single character [c]. *)
Fixpoint lstrip (c : Ascii.ascii) (s : string) : string :=
  match s with
  | String a rest => if Ascii.eqb a c then lstrip c rest else s
  | EmptyString => EmptyString
  end.

Definition strip (c : Ascii.ascii) (s : string) : string :=
  String.rev (lstrip c (String.rev (lstrip c s))).

Definition dquote : Ascii.ascii := Ascii.ascii_of_nat 34.

(** ** app/models.py *)

Inductive TaskStatus := PENDING | PLANNING | EXECUTING | COMPLETED | FAILED.

Inductive AgentType := COORDINATOR | PLANNER | EXECUTOR | RESEARCHER.

Module ExecutionStep.
Record t := mk {
  step_number : Z;
  description : string;
  agent : AgentType;
  script_path : option string;
  input_params : gmap string Any;
  depends_on : list Z;
  status : TaskStatus;
  result : Any;
  error : option string
}.

Definition set_status (v : TaskStatus) (s : t) : t :=
  mk (step_number s) (description s) (agent s) (script_path s)
     (input_params s) (depends_on s) v (result s) (error s).

Definition set_result (v : Any) (s : t) : t :=
  mk (step_number s) (description s) (agent s) (script_path s)
     (input_params s) (depends_on s) (status s) v (error s).

Definition set_error (v : option string) (s : t) : t :=
  mk (step_number s) (description s) (agent s) (script_path s)
     (input_params s) (depends_on s) (status s) (result s) v.
End ExecutionStep.

Module ExecutionPlan.
Record t := mk {
  task_id : string;
  user_id : string;
  original_request : string;
  skill : option string;
  steps : list ExecutionStep.t;
  created_at : string;
  status : TaskStatus
}.

Definition set_status (v : TaskStatus) (p : t) : t :=
  mk (task_id p) (user_id p) (original_request p) (skill p) (steps p)
     (created_at p) v.

(** The steps are objects mutated in place while the plan's list of them
    stays the same list. *)
Definition set_steps (v : list ExecutionStep.t) (p : t) : t :=
  mk (task_id p) (user_id p) (original_request p) (skill p) v
     (created_at p) (status p).
End ExecutionPlan.

Module TaskResponse.
Record t := mk {
  task_id : string;
  status : TaskStatus;
  result : Any;
  error : option string;
  execution_time_ms : Z;
  steps_completed : Z;
  total_steps : Z
}.
End TaskResponse.

Module WindmillJobResult.
Record t := mk {
  job_id : string;
  status : string;
  result : Any;
  error : option string;
  duration_ms : Z
}.
End WindmillJobResult.

(** ** The outside world: httpx, asyncio and the clock *)

(** Exceptions, by the classes the code tells apart: [except httpx.HTTPError]
    catches the first kind only, [except Exception] all of them. *)
Inductive ExcClass := HTTPError | JSONDecodeError | PlainException.

Record Exc := mkExc { exc_class : ExcClass; exc_str : string }.

Definition is_HTTPError (e : Exc) : bool :=
  match exc_class e with
  | HTTPError => true
  | _ => false
  end.

Inductive Request :=
| POST (url : string) (headers : gmap string string) (json : gmap string Any)
| GET (url : string) (headers : gmap string string).

(** What [response.json()] gives: the decoded body, or the decoder's
    complaint when the body is not JSON. *)
Inductive Body := Json (v : Any) | NotJson (msg : string).

(** An HTTP response.  [status_error] is the text of the [HTTPStatusError]
    that [raise_for_status] raises for it; the wording is httpx's. *)
Record Response := mkResponse {
  status_code : Z;
  text : string;
  body : Body;
  status_error : string
}.

Inductive Reply :=
| Answer (r : Response)
| NetworkError (msg : string).

(** How one request resolves: after [took] seconds (a non-negative
    fraction, numerator over denominator), with [reply]. *)
Record Exchange := mkExchange {
  took : N * positive;
  reply : Reply
}.

Definition seconds (d : N * positive) : Q := Z.of_N (fst d) # snd d.

(** The backend answers the n-th request it is sent. *)
Record World := mkWorld {
  now : Q;
  served : nat;
  backend : nat -> Request -> Exchange
}.

(** ** Coroutines as state passing with exceptions

    [None] is a run that has not finished within the model's fuel. *)
Inductive Result (A : Type) :=
| Ok (a : A)
| Raise (e : Exc).
Arguments Ok {A} a.
Arguments Raise {A} e.

Definition M (A : Type) : Type := World -> option (Result A * World).

Definition ret {A} (a : A) : M A := fun w => Some (Ok a, w).

Definition raise {A} (e : Exc) : M A := fun w => Some (Raise e, w).

Definition bind {A B} (m : M A) (k : A -> M B) : M B :=
  fun w =>
    match m w with
    | Some (Ok a, w') => k a w'
    | Some (Raise e, w') => Some (Raise e, w')
    | None => None
    end.

Declare Scope coro_scope.
Delimit Scope coro_scope with coro.
Notation "x <- c1 ;; c2" := (bind c1 (fun x => c2))
  (at level 100, c1 at next level, right associativity) : coro_scope.
Notation "c1 ;; c2" := (bind c1 (fun _ => c2))
  (at level 100, right associativity) : coro_scope.
Open Scope coro_scope.

(** [try: m  except httpx.HTTPError as e: h e] *)
Definition try_except_HTTPError {A} (m : M A) (h : Exc -> M A) : M A :=
  fun w =>
    match m w with
    | Some (Raise e, w') => if is_HTTPError e then h e w' else Some (Raise e, w')
    | r => r
    end.

(** [try: m  except Exception as e: ...], with the outcome handed to the
    code after the [try] statement. *)
Definition try_except_Exception {A} (m : M A) : M (A + Exc) :=
  fun w =>
    match m w with
    | Some (Ok a, w') => Some (Ok (inl a), w')
    | Some (Raise e, w') => Some (Ok (inr e), w')
    | None => None
    end.

(** [asyncio.get_event_loop().time()] and [time.time()]: both read the
    world's clock.  The clock moves in requests and sleeps only: two
    readings with nothing awaited between them are equal, where the
    program's can differ by the time the statements between them take. *)
Definition loop_time : M Q := fun w => Some (Ok (now w), w).

Definition time_time : M Q := fun w => Some (Ok (now w), w).

(** The world once [d] seconds have passed. *)
Definition later (d : Q) (w : World) : World :=
  mkWorld (now w + d) (served w) (backend w).

(** The world once the backend has served request [r]. *)
Definition answered (r : Request) (w : World) : World :=
  mkWorld (now w + seconds (took (backend w (served w) r)))
          (S (served w)) (backend w).

(** [await asyncio.sleep(d)] *)
Definition sleep (d : Z) : M unit :=
  fun w => Some (Ok tt, later (inject_Z d) w).

(** [await client.post(...)] and [await client.get(...)]: the backend's
    answer to this request, after the time it took.  The request is one
    httpx sends; a URL it refuses, raising [InvalidURL] before anything is
    sent, is not modelled (see [no_control_character]). *)
Definition send (r : Request) : M Response :=
  fun w =>
    match reply (backend w (served w) r) with
    | Answer resp => Some (Ok resp, answered r w)
    | NetworkError msg => Some (Raise (mkExc HTTPError msg), answered r w)
    end.

(** [response.raise_for_status()]: raises unless the status is 2xx. *)
Definition raise_for_status (r : Response) : M unit :=
  if (200 <=? status_code r) && (status_code r <=? 299)
  then ret tt
  else raise (mkExc HTTPError (status_error r)).

(** [response.json()] *)
Definition json_of (r : Response) : M Any :=
  match body r with
  | Json v => ret v
  | NotJson msg => raise (mkExc JSONDecodeError msg)
  end.

(** ** app/clients/windmill_client.py *)

Module WindmillClient.
Record t := mk {
  base_url : string;
  token : string;
  workspace : string;
  headers : gmap string string
}.

(** [__init__], from the three Windmill settings. *)
Definition __init__ (windmill_url windmill_token windmill_workspace : string) : t :=
  mk windmill_url windmill_token windmill_workspace
     (<["Content-Type" := "application/json"]>
        (<["Authorization" := "Bearer " +:+ windmill_token]> ∅)).

Definition timed_out (job_id : string) (timeout : Z) : WindmillJobResult.t :=
  WindmillJobResult.mk job_id "timeout" PyNone
    (Some ("Job timed out after " +:+ str_int timeout +:+ "s")) 0.

Definition completed (job_id : string) (result : Any) (duration_ms : Z)
  : WindmillJobResult.t :=
  WindmillJobResult.mk job_id "completed" result None duration_ms.

Definition unexpected (job_id : string) (status_code : Z) : WindmillJobResult.t :=
  WindmillJobResult.mk job_id "failed" PyNone
    (Some ("Unexpected status: " +:+ str_int status_code)) 0.

(** One poll, the body of the [try] statement of [_wait_for_job]:
    [Some r] is [return r], [None] falls through to the next iteration. *)
Definition poll (self : t) (url job_id : string) (elapsed : Q)
  : M (option WindmillJobResult.t) :=
  response <- send (GET url (headers self));;
  if status_code response =? 200 then
    result <- json_of response;;
    let duration_ms := int_of (elapsed * 1000) in
    ret (Some (completed job_id result duration_ms))
  else if status_code response =? 404 then
    sleep 1;;
    ret None
  else
    ret (Some (unexpected job_id (status_code response))).

(** The [while True] loop of [_wait_for_job].  Every iteration that does
    not return sleeps one second, so the loop is run on a fuel that
    [poll_budget] sizes from the timeout; [wait_loop_returns] below shows
    the fuel is never used up. *)
Fixpoint wait_loop (fuel : nat) (self : t) (url job_id : string)
    (timeout : Z) (start_time : Q) : M WindmillJobResult.t :=
  match fuel with
  | O => fun _ => None
  | S fuel' =>
    t1 <- loop_time;;
    let elapsed := (t1 - start_time)%Q in
    if negb (Qle_bool elapsed (inject_Z timeout)) then
      ret (timed_out job_id timeout)
    else
      r <- try_except_HTTPError (poll self url job_id elapsed)
             (fun e => sleep 1;; ret None);;
      match r with
      | Some res => ret res
      | None => wait_loop fuel' self url job_id timeout start_time
      end
  end.

Definition poll_budget (timeout : Z) : nat := S (Z.to_nat (timeout + 1)).

(** The [url] of [_wait_for_job]. *)
Definition poll_url (self : t) (job_id : string) : string :=
  base_url self +:+ "/api/w/" +:+ workspace self
  +:+ "/jobs/completed/get_result/" +:+ job_id.

Definition _wait_for_job (self : t) (job_id : string) (timeout : Z)
  : M WindmillJobResult.t :=
  let url := poll_url self job_id in
  start_time <- loop_time;;
  wait_loop (poll_budget timeout) self url job_id timeout start_time.

(** The request [run_script] starts a job with. *)
Definition submit_request (self : t) (script_path : string)
    (args : gmap string Any) : Request :=
  POST (base_url self +:+ "/api/w/" +:+ workspace self
        +:+ "/jobs/run/p/" +:+ script_path)
       (headers self) args.

Definition run_script (self : t) (script_path : string)
    (args : gmap string Any) (wait : bool) (timeout : Z)
  : M WindmillJobResult.t :=
  try_except_HTTPError
    (response <- send (submit_request self script_path args);;
     raise_for_status response;;
     let job_id := strip dquote (text response) in
     if negb wait then
       ret (WindmillJobResult.mk job_id "running" PyNone None 0)
     else
       _wait_for_job self job_id timeout)
    (fun e => ret (WindmillJobResult.mk "" "failed" PyNone (Some (exc_str e)) 0)).
(** [x in [...]] for a status code. *)
Definition status_in (status_code : Z) (accepted : list Z) : bool :=
  existsb (Z.eqb status_code) accepted.

Definition create_user_folder (self : t) (user_id : string) : M bool :=
  let url := base_url self +:+ "/api/w/" +:+ workspace self +:+ "/folders/create" in
  try_except_HTTPError
    (response <- send (POST url (headers self)
                         (<["name" := PyStr ("u/" +:+ user_id)]> ∅));;
     ret (status_in (status_code response) [200; 201; 409]))
    (fun e => ret false).

(** [language] and [summary] default to ["typescript"] and [""] at the
    call; here the caller passes them. *)
Definition create_script (self : t) (path content language summary : string)
  : M bool :=
  let url := base_url self +:+ "/api/w/" +:+ workspace self +:+ "/scripts/create" in
  try_except_HTTPError
    (response <- send (POST url (headers self)
                         (<["path" := PyStr path]>
                            (<["content" := PyStr content]>
                               (<["language" := PyStr language]>
                                  (<["summary" := PyStr summary]> ∅)))));;
     ret (status_in (status_code response) [200; 201]))
    (fun e => ret false).

(** The version endpoint is asked without the client's headers. *)
Definition health_check (self : t) : M bool :=
  try_except_HTTPError
    (response <- send (GET (base_url self +:+ "/api/version") ∅);;
     ret (status_code response =? 200))
    (fun e => ret false).
End WindmillClient.

(** ** app/agents/executor.py *)

Module ExecutorAgent.

(** The local variables of [_execute_plan] that the loop updates. *)
Record Locals := mkLocals {
  completed_steps : Z;
  step_results : gmap Z Any;
  final_result : Any;
  error : option string
}.

Fixpoint all_present (deps : list Z) (completed_results : gmap Z Any) : bool :=
  match deps with
  | [] => true
  | dep :: deps' =>
    if negb (contains completed_results dep) then false
    else all_present deps' completed_results
  end.

Definition _check_dependencies (step : ExecutionStep.t)
    (completed_results : gmap Z Any) : bool :=
  all_present (ExecutionStep.depends_on step) completed_results.

(** The key [f"step_{dep}_result"]. *)
Definition result_key (dep : Z) : string :=
  "step_" +:+ str_int dep +:+ "_result".

(** The [for dep in step.depends_on] loop of [_execute_step], on the copy
    of the step's [input_params]. *)
Fixpoint inject (deps : list Z) (previous_results : gmap Z Any)
    (input_params : gmap string Any) : gmap string Any :=
  match deps with
  | [] => input_params
  | dep :: deps' =>
    inject deps' previous_results
      (match previous_results !! dep with
       | Some r => <[result_key dep := r]> input_params
       | None => input_params
       end)
  end.

(** Lines 130-133 of [_execute_step]: the input handed to dispatch. *)
Definition prepared_input (step : ExecutionStep.t)
    (previous_results : gmap Z Any) : gmap string Any :=
  inject (ExecutionStep.depends_on step) previous_results
         (ExecutionStep.input_params step).

(** What [_execute_step] makes of the client's result: the payload of a
    completed job, an exception for any other. *)
Definition remote_outcome (result : WindmillJobResult.t) : M Any :=
  if String.eqb (WindmillJobResult.status result) "completed" then
    ret (WindmillJobResult.result result)
  else
    raise (mkExc PlainException
             (or_else (WindmillJobResult.error result) "Script execution failed")).

Definition _execute_step (windmill_client : WindmillClient.t)
    (step : ExecutionStep.t) (previous_results : gmap Z Any) : M Any :=
  let input_params := prepared_input step previous_results in
  if truthy (ExecutionStep.script_path step) then
    result <- WindmillClient.run_script windmill_client
                (default "" (ExecutionStep.script_path step))
                input_params true 300;;
    remote_outcome result
  else
    ret (PyDict input_params).

Definition dependencies_not_met (step : ExecutionStep.t) : string :=
  "Step " +:+ str_int (ExecutionStep.step_number step) +:+ " dependencies not met".

Definition step_failed (step : ExecutionStep.t) (e : Exc) : string :=
  "Step " +:+ str_int (ExecutionStep.step_number step) +:+ " failed: " +:+ exc_str e.

(** The [for step in plan.steps] loop.  It returns the steps as the loop
    leaves them and the locals; a [break] is the loop returning without
    going on to the remaining steps.  The calls to [log_activity] write to
    the log only and are left out. *)
Fixpoint walk (windmill_client : WindmillClient.t)
    (steps : list ExecutionStep.t) (l : Locals)
  : M (list ExecutionStep.t * Locals) :=
  match steps with
  | [] => ret ([], l)
  | step :: rest =>
    if negb (_check_dependencies step (step_results l)) then
      ret (step :: rest,
           mkLocals (completed_steps l) (step_results l) (final_result l)
                    (Some (dependencies_not_met step)))
    else
      let step := ExecutionStep.set_status EXECUTING step in
      r <- try_except_Exception
             (_execute_step windmill_client step (step_results l));;
      match r with
      | inl result =>
        let step := ExecutionStep.set_status COMPLETED step in
        let step := ExecutionStep.set_result result step in
        after <- walk windmill_client rest
                   (mkLocals (completed_steps l + 1)
                      (<[ExecutionStep.step_number step := result]>
                         (step_results l))
                      result (error l));;
        ret (step :: fst after, snd after)
      | inr e =>
        let step := ExecutionStep.set_status FAILED step in
        let step := ExecutionStep.set_error (Some (exc_str e)) step in
        ret (step :: rest,
             mkLocals (completed_steps l) (step_results l) (final_result l)
                      (Some (step_failed step e)))
      end
  end.

Definition initial : Locals := mkLocals 0 ∅ PyNone None.

(** [_execute_plan] returns the response; the plan is the caller's
    object, returned here as the call leaves it. *)
Definition _execute_plan (windmill_client : WindmillClient.t)
    (plan : ExecutionPlan.t) : M (TaskResponse.t * ExecutionPlan.t) :=
  start_time <- time_time;;
  let plan := ExecutionPlan.set_status EXECUTING plan in
  walked <- walk windmill_client (ExecutionPlan.steps plan) initial;;
  let l := snd walked in
  let plan := ExecutionPlan.set_steps (fst walked) plan in
  end_time <- time_time;;
  let execution_time := int_of ((end_time - start_time) * 1000) in
  ret (TaskResponse.mk
         (ExecutionPlan.task_id plan)
         (if negb (truthy (error l)) then COMPLETED else FAILED)
         (final_result l)
         (error l)
         execution_time
         (completed_steps l)
         (Z.of_nat (length (ExecutionPlan.steps plan))),
       plan).
(** [execute_single_script]; the [user_id] it is given is not used. *)
Definition execute_single_script (windmill_client : WindmillClient.t)
    (script_path : string) (args : gmap string Any) (user_id : string)
  : M TaskResponse.t :=
  start_time <- time_time;;
  r <- try_except_Exception
         (result <- WindmillClient.run_script windmill_client script_path args true 300;;
          t1 <- time_time;;
          let execution_time := int_of ((t1 - start_time) * 1000) in
          if String.eqb (WindmillJobResult.status result) "completed" then
            ret (TaskResponse.mk (WindmillJobResult.job_id result) COMPLETED
                   (WindmillJobResult.result result) None execution_time 1 1)
          else
            ret (TaskResponse.mk (WindmillJobResult.job_id result) FAILED
                   PyNone (WindmillJobResult.error result) execution_time 0 1));;
  match r with
  | inl response => ret response
  | inr e =>
    t2 <- time_time;;
    ret (TaskResponse.mk "" FAILED PyNone (Some (exc_str e))
           (int_of ((t2 - start_time) * 1000)) 0 1)
  end.
End ExecutorAgent.

(** ** Strings as the agents test them *)

(** [s.startswith(p)] *)
Fixpoint startswith (p s : string) : bool :=
  match p with
  | EmptyString => true
  | String a p' =>
    match s with
    | EmptyString => false
    | String b s' => if Ascii.eqb a b then startswith p' s' else false
    end
  end.

(** [sub in s] for strings. *)
Fixpoint occurs_in (sub s : string) : bool :=
  match s with
  | EmptyString => startswith sub EmptyString
  | String _ s' => if startswith sub s then true else occurs_in sub s'
  end.

(** ** app/models.py, the request *)

Module TaskRequest.
Record t := mk {
  user_id : string;
  session_id : string;
  content : string;
  conversation_id : option string;
  skill : option string;
  context : gmap string Any;
  metadata : gmap string Any
}.
End TaskRequest.

(** ** app/agents/coordinator.py

    [str.lower] is Python's; the agents are modelled over it. *)

Module CoordinatorAgent.
Section Lower.
Variable lower : string -> string.

(** The dict [self.skill_keywords], in its insertion order, which is the
    order [_detect_skill] goes through it. *)
Definition skill_keywords : list (string * list string) :=
  [("social_media", ["post"; "tweet"; "linkedin"; "instagram"; "facebook"; "social"]);
   ("analytics", ["analyze"; "metrics"; "report"; "dashboard"; "statistics"; "data"]);
   ("workflow", ["automate"; "schedule"; "workflow"; "flow"; "pipeline"]);
   ("core", ["help"; "general"; "question"; "explain"])].

(** The inner loop: is some keyword in the content? *)
Fixpoint any_keyword (keywords : list string) (content_lower : string) : bool :=
  match keywords with
  | [] => false
  | keyword :: keywords' =>
    if occurs_in keyword content_lower then true
    else any_keyword keywords' content_lower
  end.

(** The outer loop: the first skill with a keyword in the content. *)
Fixpoint first_skill (table : list (string * list string)) (content_lower : string)
  : option string :=
  match table with
  | [] => None
  | (skill, keywords) :: table' =>
    if any_keyword keywords content_lower then Some skill
    else first_skill table' content_lower
  end.

Definition _detect_skill (content : string) : string :=
  let content_lower := lower content in
  match first_skill skill_keywords content_lower with
  | Some skill => skill
  | None => "core"
  end.

(** [handle_task_request]: the dict it returns. *)
Definition handle_task_request (request : TaskRequest.t) : gmap string Any :=
  let skill :=
    if truthy (TaskRequest.skill request)
    then default "" (TaskRequest.skill request)
    else _detect_skill (TaskRequest.content request) in
  <["task_id" := PyStr ("task_" +:+ TaskRequest.session_id request)]>
    (<["user_id" := PyStr (TaskRequest.user_id request)]>
       (<["skill" := PyStr skill]>
          (<["status" := PyStr "planning"]>
             (<["message" := PyStr ("Task received, using " +:+ skill +:+ " skill")]> ∅)))).
End Lower.
End CoordinatorAgent.

(** ** app/agents/planner.py *)

Module PlannerAgent.
Section Lower.
Variable lower : string -> string.

(** The dict [self.skill_scripts]. *)
Definition skill_scripts : gmap string (gmap string string) :=
  <["social_media" :=
      <["create_post" := "f/openanalyst/social/create_post"]>
        (<["schedule_post" := "f/openanalyst/social/schedule_post"]>
           (<["analyze_engagement" := "f/openanalyst/social/analyze_engagement"]> ∅))]>
    (<["analytics" :=
         <["fetch_metrics" := "f/openanalyst/analytics/fetch_metrics"]>
           (<["generate_report" := "f/openanalyst/analytics/generate_report"]>
              (<["create_dashboard" := "f/openanalyst/analytics/create_dashboard"]> ∅))]>
       (<["workflow" :=
            <["create_flow" := "f/openanalyst/workflow/create_flow"]>
              (<["schedule_flow" := "f/openanalyst/workflow/schedule_flow"]> ∅)]>
          (<["core" :=
               <["send_message" := "f/openanalyst/core/send_ws_message"]>
                 (<["log_activity" := "f/openanalyst/core/log_activity"]> ∅)]> ∅))).

(** [any(word in content.lower() for word in words)] *)
Definition any_word (words : list string) (content : string) : bool :=
  existsb (fun word => occurs_in word (lower content)) words.

(** [ExecutionStep(...)], the fields not given taking their defaults. *)
Definition new_step (step_number : Z) (description : string)
    (script_path : option string) (input_params : gmap string Any)
    (depends_on : list Z) : ExecutionStep.t :=
  ExecutionStep.mk step_number description EXECUTOR script_path input_params
    depends_on PENDING PyNone None.

(** [_create_plan].  [task_id] is the [str(uuid4())] drawn by the call and
    [created_at] the time the plan is made at; the [context] argument is
    not used. *)
Definition _create_plan (task_id created_at : string)
    (content skill user_id : string) : ExecutionPlan.t :=
  let scripts :=
    match skill_scripts !! skill with
    | Some scripts => scripts
    | None => default ∅ (skill_scripts !! "core")
    end in
  let steps :=
    if String.eqb skill "social_media" then
      let steps :=
        if any_word ["create"; "post"; "tweet"; "write"] content then
          [new_step 1 "Generate social media content" (scripts !! "create_post")
             (<["content_request" := PyStr content]>
                (<["user_id" := PyStr user_id]> ∅)) []]
        else [] in
      if any_word ["schedule"; "later"; "tomorrow"] content then
        steps ++
        [new_step (Z.of_nat (length steps) + 1) "Schedule the post"
           (scripts !! "schedule_post")
           (<["user_id" := PyStr user_id]> ∅)
           (match steps with [] => [] | _ => [1] end)]
      else steps
    else if String.eqb skill "analytics" then
      let steps :=
        [new_step 1 "Fetch metrics data" (scripts !! "fetch_metrics")
           (<["query" := PyStr content]> (<["user_id" := PyStr user_id]> ∅)) []] in
      if occurs_in "report" (lower content) then
        steps ++
        [new_step 2 "Generate report" (scripts !! "generate_report")
           (<["user_id" := PyStr user_id]> ∅) [1]]
      else steps
    else
      [new_step 1 "Process request" (scripts !! "log_activity")
         (<["action" := PyStr "task_processed"]>
            (<["content" := PyStr content]>
               (<["user_id" := PyStr user_id]> ∅))) []] in
  ExecutionPlan.mk task_id user_id content (Some skill) steps created_at PENDING.
End Lower.
End PlannerAgent.

(** ** app/main.py *)

Module Main.
(** [fastapi.HTTPException] *)
Record HTTPException := mkHTTPException { status_code : Z; detail : string }.

(** [GET /health] *)
Definition health_check (windmill_client : WindmillClient.t) : M Any :=
  windmill_ok <- WindmillClient.health_check windmill_client;;
  ret (PyDict
         (<["status" := PyStr "healthy"]>
            (<["service" := PyStr "agno-orchestrator"]>
               (<["version" := PyStr "1.0.0"]>
                  (<["components" :=
                       PyDict
                         (<["windmill" :=
                              PyStr (if windmill_ok then "connected" else "disconnected")]>
                            (<["agents" :=
                                 PyDict
                                   (<["coordinator" := PyStr "active"]>
                                      (<["planner" := PyStr "active"]>
                                         (<["executor" := PyStr "active"]> ∅)))]> ∅))]> ∅))))).

(** [POST /api/scripts/run] *)
Definition run_script (windmill_client : WindmillClient.t)
    (script_path : string) (args : gmap string Any) (user_id : string)
  : M TaskResponse.t :=
  ExecutorAgent.execute_single_script windmill_client script_path args user_id.

(** [POST /api/users/{user_id}/workspace]: the dict returned, or the
    [HTTPException] raised. *)
Definition create_user_workspace (windmill_client : WindmillClient.t)
    (user_id : string) : M (Any + HTTPException) :=
  success <- WindmillClient.create_user_folder windmill_client user_id;;
  if success then
    ret (inl (PyDict
                (<["status" := PyStr "success"]>
                   (<["message" := PyStr ("Workspace created for user " +:+ user_id)]> ∅))))
  else
    ret (inr (mkHTTPException 500 "Failed to create workspace")).
End Main.

(** ** Vocabulary of the properties *)

(** The outcomes of a guarded poll: it returns, falls through one second
    later, or lets a decoding error out.  The backend and the request
    count move as one request does. *)
Inductive poll_outcome (self : WindmillClient.t) (url job_id : string)
    (elapsed : Q) (w : World)
  : option (Result (option WindmillJobResult.t) * World) -> Prop :=
| poll_returns res :
    WindmillJobResult.status res = "completed" \/
    WindmillJobResult.status res = "failed" ->
    poll_outcome self url job_id elapsed w
      (Some (Ok (Some res), answered (GET url (WindmillClient.headers self)) w))
| poll_retries :
    poll_outcome self url job_id elapsed w
      (Some (Ok None, later 1 (answered (GET url (WindmillClient.headers self)) w)))
| poll_raises msg :
    poll_outcome self url job_id elapsed w
      (Some (Raise (mkExc JSONDecodeError msg),
             answered (GET url (WindmillClient.headers self)) w)).

(** The submission fails, with its cause: the request does not get
    through, or the answer is not a 2xx. *)
Inductive submission_fails (w : World) (req : Request) : string -> Prop :=
| network_error msg :
    reply (backend w (served w) req) = NetworkError msg ->
    submission_fails w req msg
| not_2xx r :
    reply (backend w (served w) req) = Answer r ->
    ~ (200 <= status_code r <= 299) ->
    submission_fails w req (status_error r).

(** A backend that has no answer but 404, or no answer at all, to give. *)
Definition never_answers (w : World) : Prop :=
  forall n req,
    match reply (backend w n req) with
    | Answer r => status_code r = 404
    | NetworkError _ => True
    end.



(** The claims that fail on the code, as the specification words them. *)

(** Injection never overwrites a caller-supplied key. *)
Definition caller_keys_kept (step : ExecutionStep.t) (previous_results : gmap Z Any)
  : Prop :=
  forall k v,
    ExecutionStep.input_params step !! k = Some v ->
    ExecutorAgent.prepared_input step previous_results !! k = Some v.

(** The plan's own status is terminal when the execution returns. *)
Definition plan_left_terminal (windmill_client : WindmillClient.t)
    (plan : ExecutionPlan.t) (w : World) : Prop :=
  forall response plan' w',
    ExecutorAgent._execute_plan windmill_client plan w = Some (Ok (response, plan'), w') ->
    ExecutionPlan.status plan' = COMPLETED \/ ExecutionPlan.status plan' = FAILED.

(** A wait that has outlasted its budget when it returns has returned the
    timeout, with the error text of the specification. *)
Definition over_budget_is_timeout (self : WindmillClient.t) (job_id : string)
    (timeout : Z) (w : World) : Prop :=
  forall r w',
    WindmillClient._wait_for_job self job_id timeout w = Some (Ok r, w') ->
    (inject_Z timeout < now w' - now w)%Q ->
    WindmillJobResult.status r = "timeout" /\
    WindmillJobResult.error r = Some ("timed out after " +:+ str_int timeout).

(** From the request count of [w] on, the backend has nothing but 404s or
    network errors to give. *)
Definition polls_never_answer (w : World) : Prop :=
  forall n req, (served w <= n)%nat ->
    match reply (backend w n req) with
    | Answer r => status_code r = 404
    | NetworkError _ => True
    end.

(** Two steps that differ at most in status, result and error. *)
Definition same_identity (s s' : ExecutionStep.t) : Prop :=
  ExecutionStep.step_number s = ExecutionStep.step_number s' /\
  ExecutionStep.description s = ExecutionStep.description s' /\
  ExecutionStep.agent s = ExecutionStep.agent s' /\
  ExecutionStep.script_path s = ExecutionStep.script_path s' /\
  ExecutionStep.input_params s = ExecutionStep.input_params s' /\
  ExecutionStep.depends_on s = ExecutionStep.depends_on s'.

(** Every dependency of a step is the number of a step before it. *)
Definition well_ordered (steps : list ExecutionStep.t) : Prop :=
  forall i s d,
    steps !! i = Some s ->
    d ∈ ExecutionStep.depends_on s ->
    exists j s', (j < i)%nat /\ steps !! j = Some s' /\ ExecutionStep.step_number s' = d.

(** One of the keywords is a substring of the content. *)
Definition mentions (keywords : list string) (content : string) : Prop :=
  exists keyword a b, keyword ∈ keywords /\ content = a +:+ keyword +:+ b.

(** httpx sends a request only to a URL without ASCII control characters;
    given any other it raises [InvalidURL] before anything is sent. *)
Definition no_control_character (url : string) : bool :=
  forallb (fun c => let n := Ascii.nat_of_ascii c in
                    Nat.leb 32 n && negb (Nat.eqb n 127))
          (String.list_ascii_of_string url).


(** ** Concrete backends, steps and plans *)

Module Scenario.
Definition client : WindmillClient.t :=
  WindmillClient.__init__ "http://localhost:8000" "" "openanalyst".

Definition at_once : N * positive := (0%N, 1%positive).
Definition five_seconds : N * positive := (5%N, 1%positive).

Definition not_found : Response :=
  mkResponse 404 "Not found" (NotJson "Expecting value") "Client error 404".
Definition server_error : Response :=
  mkResponse 500 "" (NotJson "Expecting value") "Server error 500".
Definition job_started : Response :=
  mkResponse 200 (String dquote ("job-1" +:+ String dquote "")) (Json (PyStr "job-1")) "".
Definition payload : Any := PyDict (<["x" := PyInt 1]> ∅).
Definition job_done : Response := mkResponse 200 "" (Json payload) "".

(** Every request is refused. *)
Definition down : World :=
  mkWorld 0 0 (fun _ _ => mkExchange at_once (NetworkError "connection refused")).

(** Every request gets a 500. *)
Definition broken : World :=
  mkWorld 0 0 (fun _ _ => mkExchange at_once (Answer server_error)).

(** Every request gets a 404, at once. *)
Definition silent : World :=
  mkWorld 0 0 (fun _ _ => mkExchange at_once (Answer not_found)).

(** Every request takes five seconds and gets the finished job. *)
Definition slow : World :=
  mkWorld 0 0 (fun _ _ => mkExchange five_seconds (Answer job_done)).

(** The job is accepted, then polled: 404, 404, 200. *)
Definition third_time_lucky : World :=
  mkWorld 0 0 (fun n _ =>
    match n with
    | O => mkExchange at_once (Answer job_started)
    | 1%nat | 2%nat => mkExchange at_once (Answer not_found)
    | _ => mkExchange at_once (Answer job_done)
    end).

Definition passthrough (n : Z) (input_params : gmap string Any) (depends_on : list Z)
  : ExecutionStep.t :=
  ExecutionStep.mk n "collect" EXECUTOR None input_params depends_on PENDING PyNone None.

Definition scripted (n : Z) (path : string) (depends_on : list Z) : ExecutionStep.t :=
  ExecutionStep.mk n "run" EXECUTOR (Some path) ∅ depends_on PENDING PyNone None.

Definition plan_of (steps : list ExecutionStep.t) : ExecutionPlan.t :=
  ExecutionPlan.mk "task-1" "user-1" "make a report" None steps "2026-01-01T00:00:00" PENDING.

(** A step whose caller already filled in [step_1_result]. *)
Definition prefilled : ExecutionStep.t :=
  passthrough 2 (<["step_1_result" := PyStr "mine"]> (<["topic" := PyStr "sales"]> ∅)) [1].

Definition first_result : gmap Z Any := <[1 := PyInt 42]> ∅.

Definition first : ExecutionStep.t := passthrough 1 (<["topic" := PyStr "sales"]> ∅) [].
Definition report : ExecutionStep.t := scripted 2 "f/reports/build" [1].
Definition orphan : ExecutionStep.t := passthrough 2 ∅ [7].
Definition last_one : ExecutionStep.t := passthrough 3 ∅ [].
(** [str.lower] on ASCII text. *)
Definition lower_ascii (c : Ascii.ascii) : Ascii.ascii :=
  let n := Ascii.nat_of_ascii c in
  if Nat.leb 65 n && Nat.leb n 90 then Ascii.ascii_of_nat (n + 32) else c.

Fixpoint ascii_lower (s : string) : string :=
  match s with
  | EmptyString => EmptyString
  | String c s' => String (lower_ascii c) (ascii_lower s')
  end.

Definition already_there : Response :=
  mkResponse 409 "" (NotJson "Expecting value") "Client error 409".
Definition not_json : Response :=
  mkResponse 200 "<html>" (NotJson "Expecting value: line 1 column 1 (char 0)") "".

(** Every request gets a 409. *)
Definition taken : World :=
  mkWorld 0 0 (fun _ _ => mkExchange at_once (Answer already_there)).

(** Every request fails without a message, as a read timeout does. *)
Definition mute : World :=
  mkWorld 0 0 (fun _ _ => mkExchange at_once (NetworkError "")).

(** The job is accepted and never finishes. *)
Definition stuck : World :=
  mkWorld 0 0 (fun n _ =>
    match n with
    | O => mkExchange at_once (Answer job_started)
    | _ => mkExchange at_once (Answer not_found)
    end).

(** The job is accepted and the first poll gets a page that is not JSON. *)
Definition garbled : World :=
  mkWorld 0 0 (fun n _ =>
    match n with
    | O => mkExchange at_once (Answer job_started)
    | _ => mkExchange at_once (Answer not_json)
    end).
Definition half_a_second : N * positive := (1%N, 2%positive).

(** Every request takes half a second and gets a 404. *)
Definition sluggish : World :=
  mkWorld 0 0 (fun _ _ => mkExchange half_a_second (Answer not_found)).

End Scenario.

(** * Properties *)

(** ** Arithmetic on clock readings *)

Lemma over_budget_iff (elapsed : Q) (timeout : Z) :
  negb (Qle_bool elapsed (inject_Z timeout)) = true <-> (inject_Z timeout < elapsed)%Q.
Proof.
  rewrite negb_true_iff. split.
  - intros Hb. apply Qnot_le_lt. intros Hle.
    apply Qle_bool_iff in Hle. congruence.
  - intros Hlt. destruct (Qle_bool elapsed (inject_Z timeout)) eqn:Hb; [|done].
    apply Qle_bool_iff in Hb. apply Qlt_not_le in Hlt. contradiction.
Qed.

Lemma within_budget_iff (elapsed : Q) (timeout : Z) :
  negb (Qle_bool elapsed (inject_Z timeout)) = false <-> (elapsed <= inject_Z timeout)%Q.
Proof.
  rewrite negb_false_iff. apply Qle_bool_iff.
Qed.

Lemma seconds_nonneg (d : N * positive) : (0 <= seconds d)%Q.
Proof.
  destruct d as [n p]. unfold seconds, Qle. simpl. lia.
Qed.

Lemma int_of_lower (k : Z) (x : Q) :
  0 <= k -> (inject_Z k <= x)%Q -> k <= int_of x.
Proof.
  intros Hk Hle. destruct x as [n d]. unfold int_of. simpl.
  unfold Qle in Hle. simpl in Hle.
  assert (Hn : 0 <= n) by nia.
  rewrite Z.quot_div_nonneg by lia.
  apply Z.div_le_lower_bound; lia.
Qed.

Lemma int_of_zero (x : Q) : int_of ((x - x) * 1000) = 0.
Proof.
  destruct x as [n d]. unfold int_of. simpl.
  replace ((n * Z.pos d + - n * Z.pos d) * 1000) with 0 by ring.
  apply Z.quot_0_l. lia.
Qed.

(** ** The remote-job client *)

Section Client.
Import WindmillClient.
Variable self : WindmillClient.t.

Lemma wait_loop_unfold fuel url job_id timeout start_time w :
  wait_loop (S fuel) self url job_id timeout start_time w =
  if negb (Qle_bool (now w - start_time) (inject_Z timeout)) then
    Some (Ok (timed_out job_id timeout), w)
  else
    match try_except_HTTPError (poll self url job_id (now w - start_time))
            (fun e => sleep 1;; ret None) w with
    | Some (Ok (Some res), w') => Some (Ok res, w')
    | Some (Ok None, w') => wait_loop fuel self url job_id timeout start_time w'
    | Some (Raise e, w') => Some (Raise e, w')
    | None => None
    end.
Proof.
  simpl. unfold bind at 1. unfold loop_time.
  destruct (negb _); [done|].
  unfold bind at 1.
  destruct (try_except_HTTPError _ _ w) as [[[[res|]|e] w']|]; done.
Qed.

(** What one guarded poll does, by the backend's reply. *)
Lemma poll_not_found url job_id elapsed w r :
  reply (backend w (served w) (GET url (headers self))) = Answer r ->
  status_code r = 404 ->
  try_except_HTTPError (poll self url job_id elapsed)
    (fun e => sleep 1;; ret None) w
  = Some (Ok None, later 1 (answered (GET url (headers self)) w)).
Proof.
  intros Hr Hc. unfold try_except_HTTPError, poll, bind, send.
  rewrite Hr, Hc. reflexivity.
Qed.

Lemma poll_success url job_id elapsed w r v :
  reply (backend w (served w) (GET url (headers self))) = Answer r ->
  status_code r = 200 ->
  body r = Json v ->
  try_except_HTTPError (poll self url job_id elapsed)
    (fun e => sleep 1;; ret None) w
  = Some (Ok (Some (completed job_id v (int_of (elapsed * 1000)))),
          answered (GET url (headers self)) w).
Proof.
  intros Hr Hc Hb. unfold try_except_HTTPError, poll, bind, send, json_of.
  rewrite Hr, Hc, Hb. reflexivity.
Qed.

Lemma poll_undecodable url job_id elapsed w r msg :
  reply (backend w (served w) (GET url (headers self))) = Answer r ->
  status_code r = 200 ->
  body r = NotJson msg ->
  try_except_HTTPError (poll self url job_id elapsed)
    (fun e => sleep 1;; ret None) w
  = Some (Raise (mkExc JSONDecodeError msg),
          answered (GET url (headers self)) w).
Proof.
  intros Hr Hc Hb. unfold try_except_HTTPError, poll, bind, send, json_of.
  rewrite Hr, Hc, Hb. reflexivity.
Qed.

Lemma poll_other url job_id elapsed w r :
  reply (backend w (served w) (GET url (headers self))) = Answer r ->
  status_code r <> 200 ->
  status_code r <> 404 ->
  try_except_HTTPError (poll self url job_id elapsed)
    (fun e => sleep 1;; ret None) w
  = Some (Ok (Some (unexpected job_id (status_code r))),
          answered (GET url (headers self)) w).
Proof.
  intros Hr H200 H404. unfold try_except_HTTPError, poll, bind, send.
  rewrite Hr.
  destruct (Z.eqb_spec (status_code r) 200); [done|].
  destruct (Z.eqb_spec (status_code r) 404); [done|].
  reflexivity.
Qed.

Lemma poll_network_error url job_id elapsed w msg :
  reply (backend w (served w) (GET url (headers self))) = NetworkError msg ->
  try_except_HTTPError (poll self url job_id elapsed)
    (fun e => sleep 1;; ret None) w
  = Some (Ok None, later 1 (answered (GET url (headers self)) w)).
Proof.
  intros Hr. unfold try_except_HTTPError, poll, bind, send.
  rewrite Hr. reflexivity.
Qed.

Lemma poll_cases url job_id elapsed w :
  poll_outcome self url job_id elapsed w
    (try_except_HTTPError (poll self url job_id elapsed)
       (fun e => sleep 1;; ret None) w).
Proof.
  destruct (reply (backend w (served w) (GET url (headers self)))) as [r|msg] eqn:Hr.
  - destruct (Z.eq_dec (status_code r) 200) as [H200|H200].
    + destruct (body r) as [v|msg] eqn:Hb.
      * rewrite (poll_success _ _ _ _ _ _ Hr H200 Hb). constructor. by left.
      * rewrite (poll_undecodable _ _ _ _ _ _ Hr H200 Hb). constructor.
    + destruct (Z.eq_dec (status_code r) 404) as [H404|H404].
      * rewrite (poll_not_found _ _ _ _ _ Hr H404). constructor.
      * rewrite (poll_other _ _ _ _ _ Hr H200 H404). constructor. by right.
  - rewrite (poll_network_error _ _ _ _ _ Hr). constructor.
Qed.
End Client.

Section Polling.
Import WindmillClient.
Variables (self : WindmillClient.t) (url job_id : string).
Variables (timeout : Z) (start_time : Q).

Local Abbreviation loop fuel := (wait_loop fuel self url job_id timeout start_time).
Local Abbreviation get := (GET url (headers self)).

Lemma one_more_second k w :
  (inject_Z k <= now w - start_time)%Q ->
  (inject_Z (k + 1) <= now (later 1 (answered get w)) - start_time)%Q.
Proof.
  intros Hk. rewrite inject_Z_plus. simpl.
  pose proof (seconds_nonneg (took (backend w (served w) get))).
  change (inject_Z 1) with 1%Q. lra.
Qed.

Lemma budget_bounds_polls k w :
  (inject_Z k <= now w - start_time)%Q ->
  (now w - start_time <= inject_Z timeout)%Q ->
  k <= timeout.
Proof.
  intros Hk Ht. rewrite Zle_Qle. lra.
Qed.

(** The loop returns before its fuel is used up: every iteration that
    falls through has slept a second. *)
Lemma wait_loop_returns fuel : forall k w,
  (inject_Z k <= now w - start_time)%Q ->
  Z.max 0 (timeout + 1 - k) < Z.of_nat fuel ->
  exists r w', loop fuel w = Some (r, w') /\ backend w' = backend w.
Proof.
  induction fuel as [|fuel IH]; intros k w Hk Hfuel; [lia|].
  rewrite wait_loop_unfold.
  destruct (negb _) eqn:Hb; [by eauto|].
  apply within_budget_iff in Hb.
  pose proof (budget_bounds_polls _ _ Hk Hb) as Hle.
  destruct (poll_cases self url job_id (now w - start_time) w); [by eauto| |by eauto].
  destruct (IH (k + 1) (later 1 (answered get w))) as (r & w' & Hr & Hbk).
  - by apply one_more_second.
  - lia.
  - eauto.
Qed.

(** What the loop can return: a poll's verdict, or the timeout, and the
    timeout only once the budget is spent. *)
Lemma wait_loop_result fuel : forall w r w',
  loop fuel w = Some (Ok r, w') ->
  (WindmillJobResult.status r = "completed" \/ WindmillJobResult.status r = "failed")
  \/ (r = timed_out job_id timeout /\ (inject_Z timeout < now w' - start_time)%Q).
Proof.
  induction fuel as [|fuel IH]; intros w r w' Hrun; [done|].
  rewrite wait_loop_unfold in Hrun.
  destruct (negb _) eqn:Hb.
  - apply over_budget_iff in Hb. right. by simplify_eq.
  - destruct (poll_cases self url job_id (now w - start_time) w);
      [left; by simplify_eq | by eapply IH | done].
Qed.

(** Against a backend that never answers, the loop ends in the timeout. *)
Lemma wait_loop_times_out fuel : forall k w,
  never_answers w ->
  (inject_Z k <= now w - start_time)%Q ->
  Z.max 0 (timeout + 1 - k) < Z.of_nat fuel ->
  exists w', loop fuel w = Some (Ok (timed_out job_id timeout), w')
             /\ (inject_Z timeout < now w' - start_time)%Q.
Proof.
  induction fuel as [|fuel IH]; intros k w Hnever Hk Hfuel; [lia|].
  rewrite wait_loop_unfold.
  destruct (negb _) eqn:Hb.
  - apply over_budget_iff in Hb. eauto.
  - apply within_budget_iff in Hb.
    pose proof (budget_bounds_polls _ _ Hk Hb) as Hle.
    pose proof (Hnever (served w) get) as Hn.
    destruct (reply (backend w (served w) get)) as [r|msg] eqn:Hr.
    + rewrite (poll_not_found self _ _ _ _ _ Hr Hn).
      apply (IH (k + 1)); [done | by apply one_more_second | lia].
    + rewrite (poll_network_error self _ _ _ _ _ Hr).
      apply (IH (k + 1)); [done | by apply one_more_second | lia].
Qed.
End Polling.

Section Submission.
Import WindmillClient.
Variable self : WindmillClient.t.

Lemma wait_loop_no_HTTPError fuel url job_id timeout start_time : forall w e w',
  wait_loop fuel self url job_id timeout start_time w = Some (Raise e, w') ->
  is_HTTPError e = false.
Proof.
  induction fuel as [|fuel IH]; intros w e w' Hrun; [done|].
  rewrite wait_loop_unfold in Hrun.
  destruct (negb _); [done|].
  destruct (poll_cases self url job_id (now w - start_time) w);
    [done | by eapply IH | by simplify_eq].
Qed.

Lemma _wait_for_job_unfold job_id timeout w :
  _wait_for_job self job_id timeout w =
  wait_loop (poll_budget timeout) self (poll_url self job_id) job_id timeout (now w) w.
Proof. reflexivity. Qed.

Lemma elapsed_at_start (w : World) : (inject_Z 0 <= now w - now w)%Q.
Proof. change (inject_Z 0) with 0%Q. lra. Qed.

Lemma poll_budget_enough timeout :
  Z.max 0 (timeout + 1 - 0) < Z.of_nat (poll_budget timeout).
Proof. unfold poll_budget. lia. Qed.

Lemma _wait_for_job_returns job_id timeout w :
  exists r w', _wait_for_job self job_id timeout w = Some (r, w').
Proof.
  rewrite _wait_for_job_unfold.
  destruct (wait_loop_returns self (poll_url self job_id) job_id timeout (now w)
              (poll_budget timeout) 0 w) as (r & w' & Hrun & _);
    [apply elapsed_at_start | apply poll_budget_enough | eauto].
Qed.

(** A submission the backend accepts hands over to the polling wait. *)
Lemma run_script_accepted script_path args timeout w r :
  reply (backend w (served w) (submit_request self script_path args)) = Answer r ->
  200 <= status_code r <= 299 ->
  run_script self script_path args true timeout w
  = _wait_for_job self (strip dquote (text r)) timeout
      (answered (submit_request self script_path args) w).
Proof.
  intros Hr Hc. unfold run_script, try_except_HTTPError, bind at 1, send.
  rewrite Hr.
  unfold raise_for_status, bind.
  destruct (Z.leb_spec 200 (status_code r)); [|lia].
  destruct (Z.leb_spec (status_code r) 299); [|lia].
  simpl.
  destruct (_wait_for_job _ _ _ _) as [[[res|e] w']|] eqn:Hrun; try done.
  rewrite _wait_for_job_unfold in Hrun.
  by rewrite (wait_loop_no_HTTPError _ _ _ _ _ _ _ _ Hrun).
Qed.

Lemma run_script_rejected script_path args wait timeout w cause :
  submission_fails w (submit_request self script_path args) cause ->
  run_script self script_path args wait timeout w
  = Some (Ok (WindmillJobResult.mk "" "failed" PyNone (Some cause) 0),
          answered (submit_request self script_path args) w).
Proof.
  intros Hfail. unfold run_script, try_except_HTTPError, bind, send.
  destruct Hfail as [msg Hr | r Hr Hc]; rewrite Hr; [done|].
  unfold raise_for_status.
  destruct (Z.leb_spec 200 (status_code r)); [|done].
  destruct (Z.leb_spec (status_code r) 299); [lia|done].
Qed.

Lemma run_script_returns script_path args wait timeout w :
  exists r w', run_script self script_path args wait timeout w = Some (r, w').
Proof.
  set (req := submit_request self script_path args).
  destruct (reply (backend w (served w) req)) as [r|msg] eqn:Hr.
  - destruct (decide (200 <= status_code r <= 299)) as [Hc|Hc].
    + destruct wait.
      * rewrite (run_script_accepted _ _ _ _ _ Hr Hc).
        apply _wait_for_job_returns.
      * unfold run_script, try_except_HTTPError, bind, send.
        fold req in Hr |- *. rewrite Hr. unfold raise_for_status.
        destruct (Z.leb_spec 200 (status_code r)); [|lia].
        destruct (Z.leb_spec (status_code r) 299); [|lia].
        simpl. eauto.
    + erewrite run_script_rejected; [eauto|]. by eapply not_2xx.
  - erewrite run_script_rejected; [eauto|]. by eapply network_error.
Qed.
End Submission.

(** ** The scheduler's input preparation *)

Lemma string_length_app (s t : string) :
  String.length (s +:+ t) = (String.length s + String.length t)%nat.
Proof. induction s as [|a s IH]; simpl; [done | by rewrite IH]. Qed.

Lemma string_app_cancel_r (t : string) : forall s1 s2 : string,
  s1 +:+ t = s2 +:+ t -> s1 = s2.
Proof.
  induction s1 as [|a s1 IH]; intros [|b s2] Heq; simpl in Heq.
  - done.
  - apply (f_equal String.length) in Heq.
    rewrite !string_length_app in Heq. simpl in Heq. lia.
  - apply (f_equal String.length) in Heq.
    rewrite !string_length_app in Heq. simpl in Heq. lia.
  - injection Heq as -> Heq. f_equal. by apply IH.
Qed.

Lemma result_key_inj (a b : Z) :
  ExecutorAgent.result_key a = ExecutorAgent.result_key b -> a = b.
Proof.
  unfold ExecutorAgent.result_key, str_int. intros Heq.
  apply (String.app_inj "step_") in Heq.
  apply string_app_cancel_r in Heq.
  exact (pretty_Z_inj _ _ Heq).
Qed.

Section Preparation.
Import ExecutorAgent.
Variable previous_results : gmap Z Any.

Lemma all_present_true deps :
  all_present deps previous_results = true <->
  forall d, d ∈ deps -> is_Some (previous_results !! d).
Proof.
  induction deps as [|dep deps IH]; simpl.
  - split; [|done]. intros _ d Hd. by apply elem_of_nil in Hd.
  - unfold contains. destruct (previous_results !! dep) as [r|] eqn:Hdep; simpl.
    + rewrite IH. split.
      * intros Hall d [->|Hd]%elem_of_cons; [by rewrite Hdep | by apply Hall].
      * intros Hall d Hd. apply Hall. by right.
    + split; [done|]. intros Hall.
      destruct (Hall dep) as [r Hr]; [by left | congruence].
Qed.

Lemma all_present_false deps :
  all_present deps previous_results = false <->
  exists d, d ∈ deps /\ previous_results !! d = None.
Proof.
  split.
  - intros Hf. induction deps as [|dep deps IH]; simpl in Hf; [done|].
    unfold contains in Hf.
    destruct (previous_results !! dep) as [r|] eqn:Hdep; simpl in Hf.
    + destruct (IH Hf) as (d & Hd & Hnone). exists d. split; [by right | done].
    + exists dep. split; [by left | done].
  - intros (d & Hd & Hnone).
    destruct (all_present deps previous_results) eqn:Hall; [|done].
    destruct (proj1 (all_present_true deps) Hall d Hd) as [r Hr]. congruence.
Qed.

(** Injection leaves a key alone unless it is the result key of a
    dependency that has a result. *)
Lemma inject_other deps : forall (m : gmap string Any) (k : string),
  (forall d, d ∈ deps -> is_Some (previous_results !! d) -> k <> result_key d) ->
  inject deps previous_results m !! k = m !! k.
Proof.
  induction deps as [|dep deps IH]; intros m k Hk; simpl; [done|].
  rewrite IH; [|intros d Hd; apply Hk; by right].
  destruct (previous_results !! dep) as [r|] eqn:Hdep; [|done].
  apply lookup_insert_ne. intros Heq. eapply (Hk dep); [by left | by rewrite Hdep | done].
Qed.

(** Injection removes no key. *)
Lemma inject_keeps deps : forall (m : gmap string Any) (k : string),
  is_Some (m !! k) -> is_Some (inject deps previous_results m !! k).
Proof.
  induction deps as [|dep deps IH]; intros m k Hk; simpl; [done|].
  apply IH. destruct (previous_results !! dep) as [r|]; [|done].
  rewrite lookup_insert. by case_decide.
Qed.

(** Injection stores each satisfied dependency's result under its key,
    whatever was there. *)
Lemma inject_dep deps : forall (m : gmap string Any) (d : Z) (r : Any),
  d ∈ deps ->
  previous_results !! d = Some r ->
  inject deps previous_results m !! result_key d = Some r.
Proof.
  induction deps as [|dep deps IH]; intros m d r Hd Hr; simpl.
  - by apply elem_of_nil in Hd.
  - destruct (decide (d ∈ deps)) as [Hin|Hnin]; [by apply IH|].
    apply elem_of_cons in Hd as [->|Hd]; [|done].
    rewrite Hr, inject_other; [apply lookup_insert_eq|].
    intros d' Hd' _ Heq. apply result_key_inj in Heq. by subst.
Qed.
End Preparation.

(** ** The scheduler's walk *)

Lemma last_result_default (s : ExecutionStep.t) (l : list ExecutionStep.t) (d1 d2 : Any) :
  from_option ExecutionStep.result d1 (last (s :: l))
  = from_option ExecutionStep.result d2 (last (s :: l)).
Proof.
  revert s. induction l as [|s' l IH]; intros s; [done|].
  rewrite last_cons_cons. apply IH.
Qed.

Section Scheduler.
Import ExecutorAgent.
Variable windmill_client : WindmillClient.t.

Local Abbreviation step_done step result :=
  (ExecutionStep.set_result result (ExecutionStep.set_status COMPLETED step)).
Local Abbreviation step_broken step e :=
  (ExecutionStep.set_error (Some (exc_str e)) (ExecutionStep.set_status FAILED step)).

Lemma _execute_step_returns step previous_results w :
  exists r w', _execute_step windmill_client step previous_results w = Some (r, w').
Proof.
  unfold _execute_step. destruct (truthy _); [|by eexists _, _].
  unfold bind.
  destruct (run_script_returns windmill_client
              (default "" (ExecutionStep.script_path step))
              (prepared_input step previous_results) true 300 w)
    as ([res|e] & w' & ->); [|by eauto].
  unfold remote_outcome. destruct (String.eqb _ _); by eexists _, _.
Qed.

Lemma walk_cons step rest l w :
  walk windmill_client (step :: rest) l w =
  if negb (_check_dependencies step (step_results l)) then
    Some (Ok (step :: rest,
              mkLocals (completed_steps l) (step_results l) (final_result l)
                       (Some (dependencies_not_met step))), w)
  else
    match _execute_step windmill_client step (step_results l) w with
    | Some (Ok result, w1) =>
      match walk windmill_client rest
              (mkLocals (completed_steps l + 1)
                 (<[ExecutionStep.step_number step := result]> (step_results l))
                 result (error l)) w1 with
      | Some (Ok (rest', l'), w2) => Some (Ok (step_done step result :: rest', l'), w2)
      | Some (Raise e, w2) => Some (Raise e, w2)
      | None => None
      end
    | Some (Raise e, w1) =>
      Some (Ok (step_broken step e :: rest,
                mkLocals (completed_steps l) (step_results l) (final_result l)
                         (Some (step_failed step e))), w1)
    | None => None
    end.
Proof.
  simpl. destruct (negb _); [done|].
  unfold bind at 1, try_except_Exception.
  change (_execute_step windmill_client (ExecutionStep.set_status EXECUTING step))
    with (_execute_step windmill_client step).
  destruct (_execute_step _ _ _ _) as [[[result|e] w1]|]; [|done|done].
  unfold bind.
  destruct (walk _ _ _ _) as [[[[rest' l'] | e] w2]|]; done.
Qed.

(** The walk always returns, never raises, and either completes every
    step or stops with an error message at a step it leaves failed or
    untouched. *)
Lemma walk_summary steps : forall l w,
  exists steps' l' w',
    walk windmill_client steps l w = Some (Ok (steps', l'), w') /\
    length steps' = length steps /\
    ((error l' = error l /\
      completed_steps l' = completed_steps l + Z.of_nat (length steps) /\
      Forall (fun s => ExecutionStep.status s = COMPLETED) steps')
     \/
     (exists msg, error l' = Some msg /\ truthy (Some msg) = true /\
        completed_steps l <= completed_steps l'
          < completed_steps l + Z.of_nat (length steps) /\
        Exists (fun s => ExecutionStep.status s = FAILED \/ s ∈ steps) steps')).
Proof.
  induction steps as [|step rest IH]; intros l w.
  - exists [], l, w. repeat split; [done..|]. left. simpl. repeat split; [lia | done].
  - rewrite walk_cons. destruct (negb _).
    + eexists _, _, _. split; [done|]. split; [done|]. right.
      eexists. simpl. repeat split; [lia | lia |].
      apply Exists_cons_hd. right. by left.
    + destruct (_execute_step_returns step (step_results l) w) as ([result|e] & w1 & ->).
      * destruct (IH (mkLocals (completed_steps l + 1)
                        (<[ExecutionStep.step_number step := result]> (step_results l))
                        result (error l)) w1)
          as (rest' & l' & w2 & -> & Hlen & Hcase).
        eexists _, _, _. split; [done|]. split; [simpl; by rewrite Hlen|].
        simpl in Hcase. destruct Hcase as [(Herr & Hcount & Hall) | (msg & Herr & Hmsg & Hcount & Hex)].
        -- left. repeat split; [done | simpl length; lia | by constructor].
        -- right. exists msg. repeat split; [done | done | lia | simpl length; lia |].
           apply Exists_cons_tl. eapply Exists_impl; [exact Hex|].
           intros s [Hs|Hs]; [by left | right; by right].
      * eexists _, _, _. split; [done|]. split; [done|]. right.
        eexists. simpl. repeat split; [lia | lia |].
        apply Exists_cons_hd. by left.
Qed.

(** A prefix walked without error: the locals count its steps, every one
    of them is completed, the last result is the last one's, and the walk
    goes on with the rest from there. *)
Lemma walk_clean pre : forall l w pre' l1 w1,
  walk windmill_client pre l w = Some (Ok (pre', l1), w1) ->
  error l = None ->
  error l1 = None ->
  length pre' = length pre /\
  completed_steps l1 = completed_steps l + Z.of_nat (length pre) /\
  Forall (fun s => ExecutionStep.status s = COMPLETED) pre' /\
  final_result l1 = from_option ExecutionStep.result (final_result l) (last pre').
Proof.
  induction pre as [|step rest IH]; intros l w pre' l1 w1 Hrun Hl Hl1.
  - simpl in Hrun. unfold ret in Hrun. simplify_eq. simpl. repeat split; [lia | done].
  - rewrite walk_cons in Hrun. destruct (negb _).
    { by simplify_eq. }
    destruct (_execute_step _ _ _ _) as [[[result|e] w2]|]; [| |done].
    2:{ by simplify_eq. }
    destruct (walk _ rest _ _) as [[[[rest' l'] | e] w3]|] eqn:Hrest; [|done|done].
    simplify_eq.
    destruct (IH _ _ _ _ _ Hrest Hl Hl1) as (Hlen & Hcount & Hall & Hfinal).
    simpl in Hcount, Hfinal.
    repeat split.
    + simpl. by rewrite Hlen.
    + simpl length. lia.
    + by constructor.
    + rewrite Hfinal. destruct rest' as [|s rest']; [done|].
      rewrite last_cons_cons. apply last_result_default.
Qed.

Lemma walk_prefix pre : forall rest l w pre' l1 w1,
  walk windmill_client pre l w = Some (Ok (pre', l1), w1) ->
  error l = None ->
  error l1 = None ->
  walk windmill_client (pre ++ rest) l w =
  match walk windmill_client rest l1 w1 with
  | Some (Ok (rest', l'), w') => Some (Ok (pre' ++ rest', l'), w')
  | Some (Raise e, w') => Some (Raise e, w')
  | None => None
  end.
Proof.
  induction pre as [|step pre IH]; intros rest l w pre' l1 w1 Hrun Hl Hl1.
  - simpl in Hrun. unfold ret in Hrun. simplify_eq. simpl.
    destruct (walk _ rest _ _) as [[[[rest' l'] | e] w']|]; done.
  - rewrite <- app_comm_cons, walk_cons. rewrite walk_cons in Hrun.
    destruct (negb _).
    { by simplify_eq. }
    destruct (_execute_step _ _ _ _) as [[[result|e] w2]|]; [| |done].
    2:{ by simplify_eq. }
    destruct (walk _ pre _ _) as [[[[pre2 l2] | e] w3]|] eqn:Hpre; [|done|done].
    simplify_eq.
    rewrite (IH rest _ _ _ _ _ Hpre Hl Hl1).
    destruct (walk _ rest _ _) as [[[[rest' l'] | e] w']|]; done.
Qed.
End Scheduler.

(** * The claims *)

(** ** The remote-job client *)

(** C8.  A submission that fails, by a network error or by an answer that is
    not 2xx, makes [run_script] return status failed with the cause as its
    error; the submission was the only request sent: no second attempt, no
    polling. *)
Theorem failed_submission_is_final
    (self : WindmillClient.t) (script_path : string) (args : gmap string Any)
    (wait : bool) (timeout : Z) (w : World) (cause : string) :
  submission_fails w (WindmillClient.submit_request self script_path args) cause ->
  exists w',
    WindmillClient.run_script self script_path args wait timeout w
    = Some (Ok (WindmillJobResult.mk "" "failed" PyNone (Some cause) 0), w') /\
    served w' = S (served w).
Proof.
  intros Hfail. eexists. split; [by apply run_script_rejected | done].
Qed.

Lemma failed_submission_is_final_witness :
  (exists w',
    WindmillClient.run_script Scenario.client "f/reports/build" ∅ true 300 Scenario.down
    = Some (Ok (WindmillJobResult.mk "" "failed" PyNone (Some "connection refused") 0), w') /\
    served w' = S (served Scenario.down)) /\
  (exists w',
    WindmillClient.run_script Scenario.client "f/reports/build" ∅ true 300 Scenario.broken
    = Some (Ok (WindmillJobResult.mk "" "failed" PyNone (Some "Server error 500") 0), w') /\
    served w' = S (served Scenario.broken)).
Proof.
  split.
  - apply failed_submission_is_final. by apply network_error.
  - apply (failed_submission_is_final _ _ _ _ _ _ (status_error Scenario.server_error)).
    apply not_2xx; [reflexivity | simpl; lia].
Defined.

Section ThirdPoll.
Import WindmillClient.
Variables (self : WindmillClient.t) (job_id : string) (timeout : Z).

Local Abbreviation get := (GET (poll_url self job_id) (headers self)).

End ThirdPoll.





(** C6, as the specification words it, fails twice over.  The budget is
    checked between polls only: a poll in flight when the budget runs out
    still decides, so a wait of one second that is answered 200 after five
    returns completed.  And the error text of a timeout is
    ["Job timed out after <timeout>s"]. *)
Lemma over_budget_is_timeout_fails :
  ~ over_budget_is_timeout Scenario.client "job-1" 1 Scenario.slow /\
  ~ over_budget_is_timeout Scenario.client "job-1" 1 Scenario.sluggish.
Proof.
  split; intros Hclaim.
  - destruct (Hclaim (WindmillClient.completed "job-1" Scenario.payload 0)
                (answered (GET (WindmillClient.poll_url Scenario.client "job-1")
                             (WindmillClient.headers Scenario.client)) Scenario.slow))
      as [Hstatus _]; [by vm_compute | by vm_compute | discriminate Hstatus].
  - destruct (Hclaim (WindmillClient.timed_out "job-1" 1)
                (later 1 (answered (GET (WindmillClient.poll_url Scenario.client "job-1")
                                      (WindmillClient.headers Scenario.client))
                            Scenario.sluggish)))
      as [_ Herror]; [by vm_compute | by vm_compute | ].
    vm_compute in Herror. discriminate Herror.
Qed.

(** C6, amended.  An iteration of the polling loop that starts with the
    elapsed time over the timeout returns status timeout with the error
    ["Job timed out after <timeout>s"], and the world is as it was at the
    check: no further poll, no sleep.  An iteration that starts within the
    timeout polls, and a 200 with JSON then decides for completed however
    long the poll was in flight, also when the answer comes after the
    budget has run out.  A backend that has nothing but 404s or network
    errors to give, polled at a URL httpx sends to, makes the wait return
    that timeout, once the budget is spent. *)
Theorem timeout_at_the_check (self : WindmillClient.t) (job_id : string) (timeout : Z) :
  (forall (url : string) (start_time : Q) (fuel : nat) (w : World),
     (inject_Z timeout < now w - start_time)%Q ->
     WindmillClient.wait_loop (S fuel) self url job_id timeout start_time w
     = Some (Ok (WindmillJobResult.mk job_id "timeout" PyNone
                   (Some ("Job timed out after " +:+ str_int timeout +:+ "s")) 0), w))
  /\
  (forall (url : string) (start_time : Q) (fuel : nat) (w : World) (r : Response) (v : Any),
     (now w - start_time <= inject_Z timeout)%Q ->
     reply (backend w (served w) (GET url (WindmillClient.headers self))) = Answer r ->
     status_code r = 200 ->
     body r = Json v ->
     exists d,
       WindmillClient.wait_loop (S fuel) self url job_id timeout start_time w
       = Some (Ok (WindmillJobResult.mk job_id "completed" v None d),
               answered (GET url (WindmillClient.headers self)) w))
  /\
  (forall w : World,
     no_control_character (WindmillClient.poll_url self job_id) = true ->
     never_answers w ->
     exists w',
       WindmillClient._wait_for_job self job_id timeout w
       = Some (Ok (WindmillJobResult.mk job_id "timeout" PyNone
                     (Some ("Job timed out after " +:+ str_int timeout +:+ "s")) 0), w') /\
       (inject_Z timeout < now w' - now w)%Q).
Proof.
  split; [|split].
  - intros url start_time fuel w Hover.
    rewrite wait_loop_unfold.
    by rewrite (proj2 (over_budget_iff _ _) Hover).
  - intros url start_time fuel w r v Hwithin Hr Hc Hb.
    rewrite wait_loop_unfold.
    rewrite (proj2 (within_budget_iff _ _) Hwithin).
    rewrite (poll_success self _ _ _ _ _ _ Hr Hc Hb). by eexists.
  - intros w _ Hnever. rewrite _wait_for_job_unfold.
    apply (wait_loop_times_out self _ job_id timeout (now w) _ 0 w Hnever);
      [apply elapsed_at_start | apply poll_budget_enough].
Qed.

Lemma timeout_at_the_check_witness :
  ((inject_Z 1 < now (answered (GET "http://localhost:8000/poll"
                                   (WindmillClient.headers Scenario.client))
                         Scenario.slow) - 0)%Q /\
   exists d,
     WindmillClient.wait_loop 1 Scenario.client "http://localhost:8000/poll" "job-1" 1 0
       Scenario.slow
     = Some (Ok (WindmillJobResult.mk "job-1" "completed" Scenario.payload None d),
             answered (GET "http://localhost:8000/poll"
                         (WindmillClient.headers Scenario.client)) Scenario.slow)) /\
  (exists w',
     WindmillClient._wait_for_job Scenario.client "job-1" 2 Scenario.sluggish
     = Some (Ok (WindmillJobResult.mk "job-1" "timeout" PyNone
                   (Some "Job timed out after 2s") 0), w') /\
     (inject_Z 2 < now w' - now Scenario.sluggish)%Q).
Proof.
  split.
  - split; [vm_compute; reflexivity|].
    apply (proj1 (proj2 (timeout_at_the_check Scenario.client "job-1" 1))
             "http://localhost:8000/poll" 0%Q 0%nat Scenario.slow
             Scenario.job_done Scenario.payload).
    + vm_compute. discriminate.
    + reflexivity.
    + reflexivity.
    + reflexivity.
  - apply (proj2 (proj2 (timeout_at_the_check Scenario.client "job-1" 2))
             Scenario.sluggish).
    + reflexivity.
    + intros n req. reflexivity.
Defined.

(** ** The step scheduler *)

Section Execution.
Import ExecutorAgent.
Variable windmill_client : WindmillClient.t.

(** [_execute_plan] in terms of the walk. *)
Lemma _execute_plan_walked plan w steps' l w' :
  walk windmill_client (ExecutionPlan.steps plan) initial w = Some (Ok (steps', l), w') ->
  _execute_plan windmill_client plan w
  = Some (Ok (TaskResponse.mk
                (ExecutionPlan.task_id plan)
                (if negb (truthy (error l)) then COMPLETED else FAILED)
                (final_result l)
                (error l)
                (int_of ((now w' - now w) * 1000))
                (completed_steps l)
                (Z.of_nat (length steps')),
              ExecutionPlan.set_steps steps' (ExecutionPlan.set_status EXECUTING plan)),
          w').
Proof.
  intros Hwalk. unfold _execute_plan, bind, time_time. simpl.
  by rewrite Hwalk.
Qed.

(** A walk that stops at [step], after the prefix [pre] went through. *)
Lemma walk_stops_at pre step post l w pre' l1 w1 :
  walk windmill_client pre l w = Some (Ok (pre', l1), w1) ->
  error l = None ->
  error l1 = None ->
  forall step' l2 w2,
    walk windmill_client (step :: post) l1 w1 = Some (Ok (step' :: post, l2), w2) ->
    walk windmill_client (pre ++ step :: post) l w
    = Some (Ok (pre' ++ step' :: post, l2), w2).
Proof.
  intros Hpre Hl Hl1 step' l2 w2 Hstep.
  by rewrite (walk_prefix windmill_client pre (step :: post) _ _ _ _ _ Hpre Hl Hl1), Hstep.
Qed.
End Execution.

(** C3.  Step k is reached with every earlier step completed, its
    dependencies are met and its dispatch raises.  Then the response is
    failed, counts the k-1 earlier steps, carries the error
    ["Step <N> failed: <cause>"] and the result of the last completed step
    ([None] when there is none); step k is left failed with the cause, the
    steps after it are left as they were, and the world is as the failed
    dispatch left it: nothing further was attempted. *)
Theorem step_failure_halts
    (windmill_client : WindmillClient.t) (plan : ExecutionPlan.t)
    (pre : list ExecutionStep.t) (step : ExecutionStep.t) (post : list ExecutionStep.t)
    (w : World) (pre' : list ExecutionStep.t) (l1 : ExecutorAgent.Locals)
    (w1 : World) (e : Exc) (w2 : World) :
  ExecutionPlan.steps plan = pre ++ step :: post ->
  ExecutorAgent.walk windmill_client pre ExecutorAgent.initial w = Some (Ok (pre', l1), w1) ->
  ExecutorAgent.error l1 = None ->
  ExecutorAgent._check_dependencies step (ExecutorAgent.step_results l1) = true ->
  ExecutorAgent._execute_step windmill_client step (ExecutorAgent.step_results l1) w1
    = Some (Raise e, w2) ->
  exists response plan',
    ExecutorAgent._execute_plan windmill_client plan w = Some (Ok (response, plan'), w2) /\
    TaskResponse.status response = FAILED /\
    TaskResponse.steps_completed response = Z.of_nat (length pre) /\
    TaskResponse.total_steps response = Z.of_nat (length (ExecutionPlan.steps plan)) /\
    TaskResponse.error response
      = Some ("Step " +:+ str_int (ExecutionStep.step_number step)
              +:+ " failed: " +:+ exc_str e) /\
    TaskResponse.result response = from_option ExecutionStep.result PyNone (last pre') /\
    Forall (fun s => ExecutionStep.status s = COMPLETED) pre' /\
    ExecutionPlan.steps plan'
      = pre' ++ ExecutionStep.set_error (Some (exc_str e))
                  (ExecutionStep.set_status FAILED step) :: post.
Proof.
  intros Hsteps Hpre Hl1 Hdeps Hraise.
  destruct (walk_clean windmill_client pre _ _ _ _ _ Hpre eq_refl Hl1)
    as (Hlen & Hcount & Hall & Hfinal).
  eexists _, _. split.
  - apply _execute_plan_walked. rewrite Hsteps.
    eapply walk_stops_at; [exact Hpre | done | done |].
    rewrite walk_cons, Hdeps. simpl. rewrite Hraise. reflexivity.
  - simpl. repeat split; try done.
    rewrite Hsteps, !length_app. simpl. by rewrite Hlen.
Qed.

Lemma step_failure_halts_witness :
  exists response plan',
    ExecutorAgent._execute_plan Scenario.client
      (Scenario.plan_of [Scenario.first; Scenario.report; Scenario.last_one])
      Scenario.down
    = Some (Ok (response, plan'), answered (WindmillClient.submit_request Scenario.client
                                     "f/reports/build"
                                     (ExecutorAgent.prepared_input Scenario.report
                                        (<[1 := PyDict (<["topic" := PyStr "sales"]> ∅)]> ∅)))
                                  Scenario.down) /\
    TaskResponse.status response = FAILED /\
    TaskResponse.steps_completed response = 1 /\
    TaskResponse.total_steps response = 3 /\
    TaskResponse.error response = Some "Step 2 failed: connection refused" /\
    TaskResponse.result response = PyDict (<["topic" := PyStr "sales"]> ∅) /\
    Forall (fun s => ExecutionStep.status s = COMPLETED)
      [ExecutionStep.set_result (PyDict (<["topic" := PyStr "sales"]> ∅))
         (ExecutionStep.set_status COMPLETED Scenario.first)] /\
    ExecutionPlan.steps plan'
      = [ExecutionStep.set_result (PyDict (<["topic" := PyStr "sales"]> ∅))
           (ExecutionStep.set_status COMPLETED Scenario.first);
         ExecutionStep.set_error (Some "connection refused")
           (ExecutionStep.set_status FAILED Scenario.report);
         Scenario.last_one].
Proof.
  apply (step_failure_halts Scenario.client
           (Scenario.plan_of [Scenario.first; Scenario.report; Scenario.last_one])
           [Scenario.first] Scenario.report [Scenario.last_one] Scenario.down
           [ExecutionStep.set_result (PyDict (<["topic" := PyStr "sales"]> ∅))
              (ExecutionStep.set_status COMPLETED Scenario.first)]
           (ExecutorAgent.mkLocals 1 (<[1 := PyDict (<["topic" := PyStr "sales"]> ∅)]> ∅)
              (PyDict (<["topic" := PyStr "sales"]> ∅)) None)
           Scenario.down
           (mkExc PlainException "connection refused")).
  - reflexivity.
  - vm_compute. reflexivity.
  - reflexivity.
  - vm_compute. reflexivity.
  - vm_compute. reflexivity.
Defined.

(** C5.  Step k is reached with every earlier step completed and one of
    the ids in its [depends_on] has no result among those accumulated in
    this run.  Then the response is failed, counts the k-1 earlier steps
    and carries the error ["Step <N> dependencies not met"]; step k and the
    steps after it are left as they were, and the world is as it was when
    step k was reached: neither it nor any later step was attempted. *)
Theorem unmet_dependency_aborts
    (windmill_client : WindmillClient.t) (plan : ExecutionPlan.t)
    (pre : list ExecutionStep.t) (step : ExecutionStep.t) (post : list ExecutionStep.t)
    (w : World) (pre' : list ExecutionStep.t) (l1 : ExecutorAgent.Locals)
    (w1 : World) (d : Z) :
  ExecutionPlan.steps plan = pre ++ step :: post ->
  ExecutorAgent.walk windmill_client pre ExecutorAgent.initial w = Some (Ok (pre', l1), w1) ->
  ExecutorAgent.error l1 = None ->
  d ∈ ExecutionStep.depends_on step ->
  ExecutorAgent.step_results l1 !! d = None ->
  exists response plan',
    ExecutorAgent._execute_plan windmill_client plan w = Some (Ok (response, plan'), w1) /\
    TaskResponse.status response = FAILED /\
    TaskResponse.steps_completed response = Z.of_nat (length pre) /\
    TaskResponse.error response
      = Some ("Step " +:+ str_int (ExecutionStep.step_number step)
              +:+ " dependencies not met") /\
    Forall (fun s => ExecutionStep.status s = COMPLETED) pre' /\
    ExecutionPlan.steps plan' = pre' ++ step :: post.
Proof.
  intros Hsteps Hpre Hl1 Hd Hnone.
  destruct (walk_clean windmill_client pre _ _ _ _ _ Hpre eq_refl Hl1)
    as (Hlen & Hcount & Hall & Hfinal).
  assert (Hdeps : ExecutorAgent._check_dependencies step (ExecutorAgent.step_results l1) = false).
  { apply all_present_false. by exists d. }
  eexists _, _. split.
  - apply _execute_plan_walked. rewrite Hsteps.
    eapply walk_stops_at; [exact Hpre | done | done |].
    rewrite walk_cons, Hdeps. reflexivity.
  - simpl. repeat split; done.
Qed.

Lemma unmet_dependency_aborts_witness :
  exists response plan',
    ExecutorAgent._execute_plan Scenario.client
      (Scenario.plan_of [Scenario.first; Scenario.orphan; Scenario.last_one])
      Scenario.down
    = Some (Ok (response, plan'), Scenario.down) /\
    TaskResponse.status response = FAILED /\
    TaskResponse.steps_completed response = 1 /\
    TaskResponse.error response = Some "Step 2 dependencies not met" /\
    Forall (fun s => ExecutionStep.status s = COMPLETED)
      [ExecutionStep.set_result (PyDict (<["topic" := PyStr "sales"]> ∅))
         (ExecutionStep.set_status COMPLETED Scenario.first)] /\
    ExecutionPlan.steps plan'
      = [ExecutionStep.set_result (PyDict (<["topic" := PyStr "sales"]> ∅))
           (ExecutionStep.set_status COMPLETED Scenario.first);
         Scenario.orphan;
         Scenario.last_one].
Proof.
  apply (unmet_dependency_aborts Scenario.client
           (Scenario.plan_of [Scenario.first; Scenario.orphan; Scenario.last_one])
           [Scenario.first] Scenario.orphan [Scenario.last_one] Scenario.down
           [ExecutionStep.set_result (PyDict (<["topic" := PyStr "sales"]> ∅))
              (ExecutionStep.set_status COMPLETED Scenario.first)]
           (ExecutorAgent.mkLocals 1 (<[1 := PyDict (<["topic" := PyStr "sales"]> ∅)]> ∅)
              (PyDict (<["topic" := PyStr "sales"]> ∅)) None)
           Scenario.down 7).
  - reflexivity.
  - vm_compute. reflexivity.
  - reflexivity.
  - apply list_elem_of_In. simpl. by left.
  - vm_compute. reflexivity.
Defined.

(** C9.  A step without a [script_path] whose dependencies all have a
    result completes without a request: the world is unchanged, the walk
    leaves the step with status completed and the result recorded on it,
    its error and everything else as they were, and the result is the dict
    of its [input_params] with, for each dependency, that dependency's
    result under [step_<id>_result]; every other key is as in
    [input_params]. *)
Theorem passthrough_completes
    (windmill_client : WindmillClient.t) (step : ExecutionStep.t)
    (l : ExecutorAgent.Locals) (w : World) :
  ExecutionStep.script_path step = None ->
  (forall d, d ∈ ExecutionStep.depends_on step ->
             is_Some (ExecutorAgent.step_results l !! d)) ->
  exists (result : gmap string Any) (step' : ExecutionStep.t),
    ExecutorAgent._execute_step windmill_client step (ExecutorAgent.step_results l) w
      = Some (Ok (PyDict result), w) /\
    ExecutorAgent.walk windmill_client [step] l w
      = Some (Ok ([step'],
                  ExecutorAgent.mkLocals (ExecutorAgent.completed_steps l + 1)
                    (<[ExecutionStep.step_number step := PyDict result]>
                       (ExecutorAgent.step_results l))
                    (PyDict result) (ExecutorAgent.error l)), w) /\
    ExecutionStep.status step' = COMPLETED /\
    ExecutionStep.result step' = PyDict result /\
    ExecutionStep.error step' = ExecutionStep.error step /\
    same_identity step step' /\
    (forall d, d ∈ ExecutionStep.depends_on step ->
               result !! ExecutorAgent.result_key d = ExecutorAgent.step_results l !! d) /\
    (forall k, (forall d, d ∈ ExecutionStep.depends_on step ->
                          k <> ExecutorAgent.result_key d) ->
               result !! k = ExecutionStep.input_params step !! k).
Proof.
  intros Hpath Hdeps.
  exists (ExecutorAgent.prepared_input step (ExecutorAgent.step_results l)).
  eexists.
  assert (Hrun : ExecutorAgent._execute_step windmill_client step
                   (ExecutorAgent.step_results l) w
                 = Some (Ok (PyDict (ExecutorAgent.prepared_input step
                                       (ExecutorAgent.step_results l))), w)).
  { unfold ExecutorAgent._execute_step. by rewrite Hpath. }
  split; [exact Hrun|]. split.
  { rewrite walk_cons.
    unfold ExecutorAgent._check_dependencies.
    rewrite (proj2 (all_present_true _ _) Hdeps). simpl. rewrite Hrun. reflexivity. }
  split; [reflexivity|]. split; [reflexivity|]. split; [reflexivity|].
  split; [by repeat split|]. split.
  - intros d Hd. destruct (Hdeps d Hd) as [r Hr]. rewrite Hr.
    by apply inject_dep.
  - intros k Hk. apply inject_other. intros d Hd _. by apply Hk.
Qed.

Lemma passthrough_completes_witness :
  exists (result : gmap string Any) (step' : ExecutionStep.t),
    ExecutorAgent._execute_step Scenario.client Scenario.prefilled Scenario.first_result
      Scenario.silent
      = Some (Ok (PyDict result), Scenario.silent) /\
    ExecutorAgent.walk Scenario.client [Scenario.prefilled]
        (ExecutorAgent.mkLocals 1 Scenario.first_result (PyInt 42) None) Scenario.silent
      = Some (Ok ([step'],
                  ExecutorAgent.mkLocals (1 + 1)
                    (<[2 := PyDict result]> Scenario.first_result)
                    (PyDict result) None), Scenario.silent) /\
    ExecutionStep.status step' = COMPLETED /\
    ExecutionStep.result step' = PyDict result /\
    ExecutionStep.error step' = None /\
    same_identity Scenario.prefilled step' /\
    (forall d, d ∈ [1] -> result !! ExecutorAgent.result_key d = Scenario.first_result !! d) /\
    (forall k, (forall d, d ∈ [1] -> k <> ExecutorAgent.result_key d) ->
               result !! k = ExecutionStep.input_params Scenario.prefilled !! k).
Proof.
  apply (passthrough_completes Scenario.client Scenario.prefilled
           (ExecutorAgent.mkLocals 1 Scenario.first_result (PyInt 42) None)
           Scenario.silent).
  - reflexivity.
  - intros d Hd. apply list_elem_of_In in Hd. simpl in Hd.
    destruct Hd as [<-|[]]. exists (PyInt 42). reflexivity.
Defined.

(** C1, as the specification words it, fails: the caller's own
    [step_1_result] is replaced by the result of step 1. *)
Lemma caller_keys_kept_fails :
  ~ caller_keys_kept Scenario.prefilled Scenario.first_result.
Proof.
  intros Hkept.
  specialize (Hkept "step_1_result" (PyStr "mine") eq_refl).
  vm_compute in Hkept. discriminate Hkept.
Qed.

(** C1, amended.  The input handed to dispatch is the step's
    [input_params] with, for each id in [depends_on] that has a result, the
    key [step_<id>_result] set to that result, replacing what the caller
    may have put under that key; every other key has the caller's value, and
    no key is removed.  A step with a script passes this input to
    [run_script] as the job's arguments. *)
Theorem injection_frame
    (windmill_client : WindmillClient.t) (step : ExecutionStep.t)
    (previous_results : gmap Z Any) :
  let input := ExecutorAgent.prepared_input step previous_results in
  (forall d r, d ∈ ExecutionStep.depends_on step ->
               previous_results !! d = Some r ->
               input !! ExecutorAgent.result_key d = Some r) /\
  (forall k, (forall d, d ∈ ExecutionStep.depends_on step ->
                        is_Some (previous_results !! d) ->
                        k <> ExecutorAgent.result_key d) ->
             input !! k = ExecutionStep.input_params step !! k) /\
  (forall k, is_Some (ExecutionStep.input_params step !! k) -> is_Some (input !! k)) /\
  (forall path, ExecutionStep.script_path step = Some path -> path <> "" ->
     ExecutorAgent._execute_step windmill_client step previous_results
     = (result <- WindmillClient.run_script windmill_client path input true 300;;
        ExecutorAgent.remote_outcome result)).
Proof.
  intros input. subst input. split; [|split; [|split]].
  - intros d r Hd Hr. by apply inject_dep.
  - intros k Hk. by apply inject_other.
  - intros k Hsome. by apply inject_keeps.
  - intros path Hpath Hne. unfold ExecutorAgent._execute_step.
    rewrite Hpath. simpl.
    by destruct (String.eqb_spec path "").
Qed.

Lemma injection_frame_witness :
  ExecutorAgent.prepared_input Scenario.prefilled Scenario.first_result
    !! ExecutorAgent.result_key 1 = Some (PyInt 42) /\
  ExecutorAgent.prepared_input Scenario.prefilled Scenario.first_result
    !! "topic" = Some (PyStr "sales").
Proof.
  pose proof (injection_frame Scenario.client Scenario.prefilled Scenario.first_result)
    as (Hdep & Hother & _ & _).
  split.
  - apply Hdep; [apply list_elem_of_In; simpl; by left | reflexivity].
  - rewrite Hother; [reflexivity|].
    intros d Hd _. apply list_elem_of_In in Hd. simpl in Hd.
    destruct Hd as [<-|[]]. vm_compute. discriminate.
Defined.

(** C2, as the specification words it, fails: the plan's status is still
    executing when the execution returns. *)
Lemma plan_left_terminal_fails :
  ~ plan_left_terminal Scenario.client (Scenario.plan_of []) Scenario.down.
Proof.
  intros Hterminal.
  destruct (Hterminal
              (TaskResponse.mk "task-1" COMPLETED PyNone None 0 0 0)
              (ExecutionPlan.set_status EXECUTING (Scenario.plan_of []))
              Scenario.down eq_refl) as [Hs|Hs]; discriminate Hs.
Qed.

(** C2, amended.  Every execution returns.  It leaves the plan's own
    status at executing, where it set it on entry, and the terminal status
    is the response's: completed when every step was completed, failed
    when the walk stopped at a step it left failed or did not attempt. *)
Theorem execution_reaches_a_terminal_response
    (windmill_client : WindmillClient.t) (plan : ExecutionPlan.t) (w : World) :
  exists response plan' w',
    ExecutorAgent._execute_plan windmill_client plan w = Some (Ok (response, plan'), w') /\
    ExecutionPlan.status plan' = EXECUTING /\
    ((TaskResponse.status response = COMPLETED /\
      Forall (fun s => ExecutionStep.status s = COMPLETED) (ExecutionPlan.steps plan'))
     \/
     (TaskResponse.status response = FAILED /\
      Exists (fun s => ExecutionStep.status s = FAILED \/ s ∈ ExecutionPlan.steps plan)
        (ExecutionPlan.steps plan'))).
Proof.
  destruct (walk_summary windmill_client (ExecutionPlan.steps plan)
              ExecutorAgent.initial w)
    as (steps' & l & w' & Hwalk & Hlen & Hcase).
  eexists _, _, _. split; [by apply _execute_plan_walked|].
  split; [done|]. simpl.
  destruct Hcase as [(Herr & _ & Hall) | (msg & Herr & Hmsg & _ & Hex)].
  - left. rewrite Herr. by split.
  - right. rewrite Herr, Hmsg. by split.
Qed.

(** C4.  Every execution returns a response with
    [steps_completed <= total_steps], [total_steps] the number of steps of
    the plan, and status completed exactly when there is no error and
    [steps_completed = total_steps]. *)
Theorem response_invariant
    (windmill_client : WindmillClient.t) (plan : ExecutionPlan.t) (w : World) :
  exists response plan' w',
    ExecutorAgent._execute_plan windmill_client plan w = Some (Ok (response, plan'), w') /\
    0 <= TaskResponse.steps_completed response <= TaskResponse.total_steps response /\
    TaskResponse.total_steps response = Z.of_nat (length (ExecutionPlan.steps plan)) /\
    (TaskResponse.status response = COMPLETED <->
     TaskResponse.error response = None /\
     TaskResponse.steps_completed response = TaskResponse.total_steps response).
Proof.
  destruct (walk_summary windmill_client (ExecutionPlan.steps plan)
              ExecutorAgent.initial w)
    as (steps' & l & w' & Hwalk & Hlen & Hcase).
  eexists _, _, _. split; [by apply _execute_plan_walked|].
  simpl. rewrite Hlen.
  destruct Hcase as [(Herr & Hcount & _) | (msg & Herr & Hmsg & Hcount & _)];
    simpl in Herr, Hcount; rewrite Herr.
  - repeat split; [lia | lia | lia].
  - rewrite Hmsg. simpl. repeat split; [lia | lia | done | done | ].
    intros [? _]. done.
Qed.

(** C10.  A plan without steps: the response is completed, with no result,
    no error and both counts zero; the plan comes back with status
    executing, still without steps and with every other field as it was.
    No request is sent. *)
Theorem empty_plan_completes
    (windmill_client : WindmillClient.t) (plan : ExecutionPlan.t) (w : World) :
  ExecutionPlan.steps plan = [] ->
  exists plan',
    ExecutorAgent._execute_plan windmill_client plan w
    = Some (Ok (TaskResponse.mk (ExecutionPlan.task_id plan) COMPLETED PyNone None 0 0 0,
                plan'),
            w) /\
    ExecutionPlan.status plan' = EXECUTING /\
    ExecutionPlan.steps plan' = [] /\
    ExecutionPlan.task_id plan' = ExecutionPlan.task_id plan /\
    ExecutionPlan.user_id plan' = ExecutionPlan.user_id plan /\
    ExecutionPlan.original_request plan' = ExecutionPlan.original_request plan /\
    ExecutionPlan.skill plan' = ExecutionPlan.skill plan /\
    ExecutionPlan.created_at plan' = ExecutionPlan.created_at plan.
Proof.
  intros Hsteps. eexists. split.
  - rewrite (_execute_plan_walked windmill_client plan w [] ExecutorAgent.initial w)
      by (by rewrite Hsteps).
    simpl. rewrite int_of_zero. reflexivity.
  - repeat split.
Qed.

Lemma empty_plan_completes_witness :
  exists plan',
    ExecutorAgent._execute_plan Scenario.client (Scenario.plan_of []) Scenario.down
    = Some (Ok (TaskResponse.mk "task-1" COMPLETED PyNone None 0 0 0, plan'),
            Scenario.down) /\
    ExecutionPlan.status plan' = EXECUTING /\
    ExecutionPlan.steps plan' = [] /\
    ExecutionPlan.task_id plan' = "task-1" /\
    ExecutionPlan.user_id plan' = "user-1" /\
    ExecutionPlan.original_request plan' = "make a report" /\
    ExecutionPlan.skill plan' = None /\
    ExecutionPlan.created_at plan' = "2026-01-01T00:00:00".
Proof.
  apply (empty_plan_completes Scenario.client (Scenario.plan_of []) Scenario.down).
  reflexivity.
Defined.

(** * Further properties of the engine *)

(** ** The remote-job client, beyond the claims *)

Lemma int_of_upper (k : Z) (x : Q) :
  (0 <= x)%Q -> (x <= inject_Z k)%Q -> int_of x <= k.
Proof.
  intros H0 Hle. destruct x as [n d]. unfold int_of. simpl.
  unfold Qle in H0, Hle. simpl in H0, Hle.
  rewrite Z.quot_div_nonneg by lia.
  apply Z.div_le_upper_bound; lia.
Qed.

Section Verdicts.
Import WindmillClient.
Variables (self : WindmillClient.t) (url job_id : string).
Variables (timeout : Z) (start_time : Q).

Local Abbreviation loop fuel := (wait_loop fuel self url job_id timeout start_time).
Local Abbreviation get := (GET url (headers self)).

(** A poll that returns has met a 200 or a status that is neither 200 nor
    404. *)
Lemma poll_verdict elapsed w res w' :
  try_except_HTTPError (poll self url job_id elapsed)
    (fun e => sleep 1;; ret None) w = Some (Ok (Some res), w') ->
  w' = answered get w /\
  ((exists v, res = completed job_id v (int_of (elapsed * 1000))) \/
   (exists c, res = unexpected job_id c)).
Proof.
  intros Hrun.
  destruct (reply (backend w (served w) get)) as [r|msg] eqn:Hr.
  - destruct (Z.eq_dec (status_code r) 200) as [H200|H200].
    + destruct (body r) as [v|msg] eqn:Hb.
      * rewrite (poll_success self _ _ _ _ _ _ Hr H200 Hb) in Hrun.
        simplify_eq. split; [done|]. left. by eexists.
      * by rewrite (poll_undecodable self _ _ _ _ _ _ Hr H200 Hb) in Hrun.
    + destruct (Z.eq_dec (status_code r) 404) as [H404|H404].
      * by rewrite (poll_not_found self _ _ _ _ _ Hr H404) in Hrun.
      * rewrite (poll_other self _ _ _ _ _ Hr H200 H404) in Hrun.
        simplify_eq. split; [done|]. right. by eexists.
  - by rewrite (poll_network_error self _ _ _ _ _ Hr) in Hrun.
Qed.

(** The three results of the loop, with the duration of a completed one
    inside the budget. *)
Lemma wait_loop_verdict fuel : forall k w r w',
  loop fuel w = Some (Ok r, w') ->
  0 <= k ->
  (inject_Z k <= now w - start_time)%Q ->
  (exists v d, r = completed job_id v d /\ 0 <= d <= 1000 * timeout) \/
  (exists c, r = unexpected job_id c) \/
  r = timed_out job_id timeout.
Proof.
  induction fuel as [|fuel IH]; intros k w r w' Hrun Hk Hel; [done|].
  rewrite wait_loop_unfold in Hrun.
  destruct (negb _) eqn:Hb.
  - right. right. by simplify_eq.
  - apply within_budget_iff in Hb.
    destruct (try_except_HTTPError _ _ w) as [[[[res|]|e] w1]|] eqn:Hpoll; [| |done|done].
    + destruct (poll_verdict _ _ _ _ Hpoll) as [_ [[v ->] | [c ->]]]; simplify_eq.
      * left. eexists _, _. split; [done|].
        assert (H0 : (0 <= now w - start_time)%Q).
        { eapply Qle_trans; [|exact Hel].
          change 0%Q with (inject_Z 0). by rewrite <- Zle_Qle. }
        split.
        -- apply int_of_lower; [lia|]. change (inject_Z 0) with 0%Q. lra.
        -- apply int_of_upper; [lra|].
           rewrite inject_Z_mult. change (inject_Z 1000) with 1000%Q. lra.
      * right. left. by eexists.
    + pose proof (poll_cases self url job_id (now w - start_time) w) as Hcases.
      rewrite Hpoll in Hcases. inversion Hcases; subst.
      apply (IH (k + 1) _ _ _ Hrun); [lia | by apply one_more_second].
Qed.

(** The loop polls at most once per second of budget, and once more. *)
Lemma wait_loop_polls fuel : forall k w r w',
  loop fuel w = Some (r, w') ->
  (inject_Z k <= now w - start_time)%Q ->
  (served w <= served w' <= served w + Z.to_nat (timeout + 1 - k))%nat.
Proof.
  induction fuel as [|fuel IH]; intros k w r w' Hrun Hel; [done|].
  rewrite wait_loop_unfold in Hrun.
  destruct (negb _) eqn:Hb.
  - simplify_eq. lia.
  - apply within_budget_iff in Hb.
    pose proof (budget_bounds_polls _ _ _ _ Hel Hb) as Hle.
    destruct (poll_cases self url job_id (now w - start_time) w).
    + simplify_eq. simpl. lia.
    + specialize (IH (k + 1) _ _ _ Hrun (one_more_second self url _ _ _ Hel)).
      simpl in IH. lia.
    + simplify_eq. simpl. lia.
Qed.

(** Against a backend that has stopped answering, the loop ends in the
    timeout. *)
Lemma wait_loop_gives_up fuel : forall k w,
  polls_never_answer w ->
  (inject_Z k <= now w - start_time)%Q ->
  Z.max 0 (timeout + 1 - k) < Z.of_nat fuel ->
  exists w', loop fuel w = Some (Ok (timed_out job_id timeout), w').
Proof.
  induction fuel as [|fuel IH]; intros k w Hnever Hk Hfuel; [lia|].
  rewrite wait_loop_unfold.
  destruct (negb _) eqn:Hb; [by eauto|].
  apply within_budget_iff in Hb.
  pose proof (budget_bounds_polls _ _ _ _ Hk Hb) as Hle.
  assert (Hnext : polls_never_answer (later 1 (answered get w))).
  { intros n req Hn. apply Hnever. simpl in Hn. lia. }
  pose proof (Hnever (served w) get (Nat.le_refl _)) as Hn.
  destruct (reply (backend w (served w) get)) as [r|msg] eqn:Hr.
  - rewrite (poll_not_found self _ _ _ _ _ Hr Hn).
    apply (IH (k + 1)); [done | by apply one_more_second | lia].
  - rewrite (poll_network_error self _ _ _ _ _ Hr).
    apply (IH (k + 1)); [done | by apply one_more_second | lia].
Qed.
End Verdicts.

Section Outcomes.
Import WindmillClient.
Variable self : WindmillClient.t.

Lemma run_script_not_waiting script_path args timeout w r :
  reply (backend w (served w) (submit_request self script_path args)) = Answer r ->
  200 <= status_code r <= 299 ->
  run_script self script_path args false timeout w
  = Some (Ok (WindmillJobResult.mk (strip dquote (text r)) "running" PyNone None 0),
          answered (submit_request self script_path args) w).
Proof.
  intros Hr Hc. unfold run_script, try_except_HTTPError, bind, send.
  rewrite Hr. unfold raise_for_status.
  destruct (Z.leb_spec 200 (status_code r)); [|lia].
  destruct (Z.leb_spec (status_code r) 299); [|lia].
  reflexivity.
Qed.

Lemma _wait_for_job_verdict job_id timeout w r w' :
  _wait_for_job self job_id timeout w = Some (Ok r, w') ->
  (exists v d, r = completed job_id v d /\ 0 <= d <= 1000 * timeout) \/
  (exists c, r = unexpected job_id c) \/
  r = timed_out job_id timeout.
Proof.
  rewrite _wait_for_job_unfold. intros Hrun.
  apply (wait_loop_verdict self _ _ _ _ _ 0 _ _ _ Hrun); [lia | apply elapsed_at_start].
Qed.

Lemma _wait_for_job_polls job_id timeout w r w' :
  _wait_for_job self job_id timeout w = Some (r, w') ->
  (served w <= served w' <= served w + Z.to_nat (timeout + 1))%nat.
Proof.
  rewrite _wait_for_job_unfold. intros Hrun.
  pose proof (wait_loop_polls self _ _ _ _ _ 0 _ _ _ Hrun (elapsed_at_start w)) as Hb.
  by rewrite Z.sub_0_r in Hb.
Qed.

(** The submission decides which way [run_script] goes. *)
Lemma run_script_cases script_path args wait timeout w :
  let post := submit_request self script_path args in
  (exists cause,
     run_script self script_path args wait timeout w
     = Some (Ok (WindmillJobResult.mk "" "failed" PyNone (Some cause) 0), answered post w))
  \/
  (exists r, wait = false /\
     run_script self script_path args wait timeout w
     = Some (Ok (WindmillJobResult.mk (strip dquote (text r)) "running" PyNone None 0),
             answered post w))
  \/
  (exists r, wait = true /\
     run_script self script_path args wait timeout w
     = _wait_for_job self (strip dquote (text r)) timeout (answered post w)).
Proof.
  intros post.
  destruct (reply (backend w (served w) post)) as [r|msg] eqn:Hr.
  - destruct (decide (200 <= status_code r <= 299)) as [Hc|Hc].
    + right. destruct wait.
      * right. exists r. split; [done|]. by apply run_script_accepted.
      * left. exists r. split; [done|]. by apply run_script_not_waiting.
    + left. eexists. apply run_script_rejected. by eapply not_2xx.
  - left. eexists. apply run_script_rejected. by eapply network_error.
Qed.
End Outcomes.

(** X1.  A submission the backend accepts, made with [wait] false, returns
    at once: status running, the job id the body of the answer without its
    quotes, and the submission the only request sent. *)
Theorem submission_without_waiting
    (self : WindmillClient.t) (script_path : string) (args : gmap string Any)
    (timeout : Z) (w : World) (r : Response) :
  reply (backend w (served w) (WindmillClient.submit_request self script_path args))
    = Answer r ->
  200 <= status_code r <= 299 ->
  exists w',
    WindmillClient.run_script self script_path args false timeout w
    = Some (Ok (WindmillJobResult.mk (strip dquote (text r)) "running" PyNone None 0), w') /\
    served w' = S (served w).
Proof.
  intros Hr Hc. eexists. split; [by apply run_script_not_waiting | done].
Qed.

Lemma submission_without_waiting_witness :
  exists w',
    WindmillClient.run_script Scenario.client "f/reports/build" ∅ false 300
      Scenario.third_time_lucky
    = Some (Ok (WindmillJobResult.mk "job-1" "running" PyNone None 0), w') /\
    served w' = S (served Scenario.third_time_lucky).
Proof.
  apply (submission_without_waiting Scenario.client "f/reports/build" ∅ 300
           Scenario.third_time_lucky Scenario.job_started).
  - reflexivity.
  - simpl. lia.
Defined.

Lemma run_script_waited
    (self : WindmillClient.t) (script_path : string) (args : gmap string Any)
    (timeout : Z) (w : World) (r : WindmillJobResult.t) (w' : World) :
  WindmillClient.run_script self script_path args true timeout w = Some (Ok r, w') ->
  (WindmillJobResult.status r = "completed" /\
   WindmillJobResult.error r = None /\
   0 <= WindmillJobResult.duration_ms r <= 1000 * timeout)
  \/
  ((WindmillJobResult.status r = "failed" \/ WindmillJobResult.status r = "timeout") /\
   is_Some (WindmillJobResult.error r) /\
   WindmillJobResult.result r = PyNone /\
   WindmillJobResult.duration_ms r = 0).
Proof.
  intros Hrun.
  destruct (run_script_cases self script_path args true timeout w)
    as [[cause Heq] | [(r0 & Hw & _) | (r0 & _ & Heq)]]; [|done|].
  - rewrite Heq in Hrun. simplify_eq. right. simpl. eauto 10.
  - rewrite Heq in Hrun.
    destruct (_wait_for_job_verdict self _ _ _ _ _ Hrun)
      as [(v & d & -> & Hd) | [[c ->] | ->]]; simpl.
    + left. done.
    + right. eauto 10.
    + right. eauto 10.
Qed.

(** X2.  What [run_script] returns when it waits: never running.  A
    completed result has no error and a duration within the timeout; any
    other result is failed or timeout, has an error text, no result and
    duration zero. *)
Theorem waited_result_is_terminal
    (self : WindmillClient.t) (script_path : string) (args : gmap string Any)
    (timeout : Z) (w : World) (r : WindmillJobResult.t) (w' : World) :
  WindmillClient.run_script self script_path args true timeout w = Some (Ok r, w') ->
  (WindmillJobResult.status r = "completed" /\
   WindmillJobResult.error r = None /\
   0 <= WindmillJobResult.duration_ms r <= 1000 * timeout)
  \/
  ((WindmillJobResult.status r = "failed" \/ WindmillJobResult.status r = "timeout") /\
   is_Some (WindmillJobResult.error r) /\
   WindmillJobResult.result r = PyNone /\
   WindmillJobResult.duration_ms r = 0).
Proof. apply run_script_waited. Qed.

Lemma waited_result_is_terminal_witness :
  (WindmillJobResult.status (WindmillClient.timed_out "job-1" 300) = "completed" /\
   WindmillJobResult.error (WindmillClient.timed_out "job-1" 300) = None /\
   0 <= WindmillJobResult.duration_ms (WindmillClient.timed_out "job-1" 300) <= 1000 * 300)
  \/
  ((WindmillJobResult.status (WindmillClient.timed_out "job-1" 300) = "failed" \/
    WindmillJobResult.status (WindmillClient.timed_out "job-1" 300) = "timeout") /\
   is_Some (WindmillJobResult.error (WindmillClient.timed_out "job-1" 300)) /\
   WindmillJobResult.result (WindmillClient.timed_out "job-1" 300) = PyNone /\
   WindmillJobResult.duration_ms (WindmillClient.timed_out "job-1" 300) = 0).
Proof.
  apply (waited_result_is_terminal Scenario.client "f/reports/build" ∅ 300
           Scenario.stuck (WindmillClient.timed_out "job-1" 300)
           (Nat.iter 301 (fun w => later 1 (answered
              (GET (WindmillClient.poll_url Scenario.client "job-1")
                 (WindmillClient.headers Scenario.client)) w))
              (answered (WindmillClient.submit_request Scenario.client "f/reports/build" ∅)
                 Scenario.stuck))).
  vm_compute. reflexivity.
Defined.

Lemma run_script_requests
    (self : WindmillClient.t) (script_path : string) (args : gmap string Any)
    (wait : bool) (timeout : Z) (w : World)
    (r : Result WindmillJobResult.t) (w' : World) :
  WindmillClient.run_script self script_path args wait timeout w = Some (r, w') ->
  (served w < served w' <= served w + 1 + Z.to_nat (timeout + 1))%nat.
Proof.
  intros Hrun.
  destruct (run_script_cases self script_path args wait timeout w)
    as [[cause Heq] | [(r0 & _ & Heq) | (r0 & _ & Heq)]]; rewrite Heq in Hrun.
  - simplify_eq. simpl. lia.
  - simplify_eq. simpl. lia.
  - apply _wait_for_job_polls in Hrun. simpl in Hrun. lia.
Qed.

(** X3.  [run_script] never sends more than [timeout + 2] requests: the
    submission, then at most one poll per second of timeout, and one more;
    whatever the backend answers, whether it waits or not, and whether it
    returns or raises. *)
Theorem run_script_request_bound
    (self : WindmillClient.t) (script_path : string) (args : gmap string Any)
    (wait : bool) (timeout : Z) (w : World)
    (r : Result WindmillJobResult.t) (w' : World) :
  WindmillClient.run_script self script_path args wait timeout w = Some (r, w') ->
  (served w <= served w' <= served w + 1 + Z.to_nat (timeout + 1))%nat.
Proof.
  intros Hrun. apply run_script_requests in Hrun. lia.
Qed.

Lemma run_script_request_bound_witness :
  exists d w',
    WindmillClient.run_script Scenario.client "f/reports/build" ∅ true 300
      Scenario.third_time_lucky
    = Some (Ok (WindmillJobResult.mk "job-1" "completed" Scenario.payload None d), w') /\
    served w' = 4%nat /\
    (served Scenario.third_time_lucky <= served w'
     <= served Scenario.third_time_lucky + 1 + Z.to_nat (300 + 1))%nat.
Proof.
  exists 2000. eexists. split; [vm_compute; reflexivity|]. split; [reflexivity|].
  apply (run_script_request_bound Scenario.client "f/reports/build" ∅ true 300
           Scenario.third_time_lucky
           (Ok (WindmillJobResult.mk "job-1" "completed" Scenario.payload None 2000))).
  vm_compute. reflexivity.
Defined.

(** X4.  With a negative timeout the wait gives up before its first poll:
    the timeout result, and the world untouched. *)
Theorem negative_timeout_never_polls
    (self : WindmillClient.t) (job_id : string) (timeout : Z) (w : World) :
  timeout < 0 ->
  WindmillClient._wait_for_job self job_id timeout w
  = Some (Ok (WindmillClient.timed_out job_id timeout), w).
Proof.
  intros Hneg. rewrite _wait_for_job_unfold. unfold WindmillClient.poll_budget.
  rewrite wait_loop_unfold.
  rewrite (proj2 (over_budget_iff (now w - now w) timeout)); [done|].
  assert (inject_Z timeout < inject_Z 0)%Q by (by rewrite <- Zlt_Qlt).
  change (inject_Z 0) with 0%Q in *. lra.
Qed.

Lemma negative_timeout_never_polls_witness :
  WindmillClient._wait_for_job Scenario.client "job-1" (-1) Scenario.slow
  = Some (Ok (WindmillClient.timed_out "job-1" (-1)), Scenario.slow).
Proof.
  apply (negative_timeout_never_polls Scenario.client "job-1" (-1) Scenario.slow).
  lia.
Defined.

(** ** The client's other calls *)

Section Admin.
Import WindmillClient.
Variable self : WindmillClient.t.

(** A call that sends one request and answers by the status alone. *)
Lemma status_call req (accepted : Z -> bool) w :
  try_except_HTTPError
    (response <- send req;; ret (accepted (status_code response)))
    (fun e => ret false) w
  = Some (Ok (match reply (backend w (served w) req) with
              | Answer r => accepted (status_code r)
              | NetworkError _ => false
              end), answered req w).
Proof.
  unfold try_except_HTTPError, bind, send.
  by destruct (reply (backend w (served w) req)).
Qed.

Lemma status_in_spec (c : Z) (accepted : list Z) :
  status_in c accepted = true <-> c ∈ accepted.
Proof.
  unfold status_in. rewrite existsb_exists. split.
  - intros (x & Hx & ->%Z.eqb_eq). by apply list_elem_of_In.
  - intros Hc. exists c. split; [by apply list_elem_of_In | apply Z.eqb_refl].
Qed.
End Admin.

(** X5.  [create_user_folder] sends one request and never raises.  It
    answers true exactly when the backend answered 200, 201 or 409 (the
    folder is there already), and false on any other status or a network
    error. *)
Theorem create_user_folder_succeeds_iff
    (self : WindmillClient.t) (user_id : string) (w : World) :
  exists (ok : bool) (w' : World),
    WindmillClient.create_user_folder self user_id w = Some (Ok ok, w') /\
    served w' = S (served w) /\
    (ok = true <->
     exists r,
       reply (backend w (served w)
                (POST (WindmillClient.base_url self +:+ "/api/w/"
                       +:+ WindmillClient.workspace self +:+ "/folders/create")
                   (WindmillClient.headers self)
                   (<["name" := PyStr ("u/" +:+ user_id)]> ∅))) = Answer r /\
       (status_code r = 200 \/ status_code r = 201 \/ status_code r = 409)).
Proof.
  unfold WindmillClient.create_user_folder.
  rewrite (status_call _ (fun c => WindmillClient.status_in c [200; 201; 409])).
  eexists _, _. split; [done|]. split; [done|].
  destruct (reply _) as [r|msg] eqn:Hr.
  - rewrite status_in_spec, !elem_of_cons, elem_of_nil. split.
    + intros Hin. exists r. split; [done | tauto].
    + intros (r' & Hr' & Hc). simplify_eq. tauto.
  - split; [done|]. by intros (r' & Hr' & _).
Qed.

(** X6.  [create_script] sends one request and never raises.  It answers
    true exactly when the backend answered 200 or 201; a 409, which
    [create_user_folder] takes for success, is a failure here, as is a
    network error. *)
Theorem create_script_succeeds_iff
    (self : WindmillClient.t) (path content language summary : string) (w : World) :
  exists (ok : bool) (w' : World),
    WindmillClient.create_script self path content language summary w = Some (Ok ok, w') /\
    served w' = S (served w) /\
    (ok = true <->
     exists r,
       reply (backend w (served w)
                (POST (WindmillClient.base_url self +:+ "/api/w/"
                       +:+ WindmillClient.workspace self +:+ "/scripts/create")
                   (WindmillClient.headers self)
                   (<["path" := PyStr path]>
                      (<["content" := PyStr content]>
                         (<["language" := PyStr language]>
                            (<["summary" := PyStr summary]> ∅)))))) = Answer r /\
       (status_code r = 200 \/ status_code r = 201)).
Proof.
  unfold WindmillClient.create_script.
  rewrite (status_call _ (fun c => WindmillClient.status_in c [200; 201])).
  eexists _, _. split; [done|]. split; [done|].
  destruct (reply _) as [r|msg] eqn:Hr.
  - rewrite status_in_spec, !elem_of_cons, elem_of_nil. split.
    + intros Hin. exists r. split; [done | tauto].
    + intros (r' & Hr' & Hc). simplify_eq. tauto.
  - split; [done|]. by intros (r' & Hr' & _).
Qed.

(** X7.  [health_check] sends one request, without the client's
    authorization header, and never raises.  It answers true exactly when
    the version endpoint answered 200. *)
Theorem health_check_succeeds_iff (self : WindmillClient.t) (w : World) :
  exists (ok : bool) (w' : World),
    WindmillClient.health_check self w = Some (Ok ok, w') /\
    served w' = S (served w) /\
    (ok = true <->
     exists r, reply (backend w (served w)
                        (GET (WindmillClient.base_url self +:+ "/api/version") ∅))
               = Answer r /\ status_code r = 200).
Proof.
  unfold WindmillClient.health_check.
  rewrite (status_call _ (fun c => c =? 200)).
  eexists _, _. split; [done|]. split; [done|].
  destruct (reply _) as [r|msg] eqn:Hr.
  - rewrite Z.eqb_eq. split.
    + intros Hc. by exists r.
    + intros (r' & Hr' & Hc). by simplify_eq.
  - split; [done|]. intros (r' & Hr' & _). congruence.
Qed.

(** ** [execute_single_script] *)

Section SingleScript.
Import ExecutorAgent.
Variable windmill_client : WindmillClient.t.

(** [execute_single_script] by what [run_script] does. *)
Lemma execute_single_script_cases script_path args user_id w :
  match WindmillClient.run_script windmill_client script_path args true 300 w with
  | Some (Ok result, w') =>
    execute_single_script windmill_client script_path args user_id w
    = Some (Ok (if String.eqb (WindmillJobResult.status result) "completed" then
                  TaskResponse.mk (WindmillJobResult.job_id result) COMPLETED
                    (WindmillJobResult.result result) None
                    (int_of ((now w' - now w) * 1000)) 1 1
                else
                  TaskResponse.mk (WindmillJobResult.job_id result) FAILED PyNone
                    (WindmillJobResult.error result)
                    (int_of ((now w' - now w) * 1000)) 0 1), w')
  | Some (Raise e, w') =>
    execute_single_script windmill_client script_path args user_id w
    = Some (Ok (TaskResponse.mk "" FAILED PyNone (Some (exc_str e))
                  (int_of ((now w' - now w) * 1000)) 0 1), w')
  | None => execute_single_script windmill_client script_path args user_id w = None
  end.
Proof.
  unfold execute_single_script, bind, try_except_Exception, time_time. simpl.
  destruct (WindmillClient.run_script _ _ _ _ _ _) as [[[result|e] w']|]; [|done|done].
  by destruct (String.eqb _ _).
Qed.

(** A 200 that is not JSON, at the first poll, comes out of [run_script]
    as the decoder's exception. *)
Lemma run_script_undecodable script_path args w r0 r1 msg :
  let post := WindmillClient.submit_request windmill_client script_path args in
  let get := GET (WindmillClient.poll_url windmill_client (strip dquote (text r0)))
               (WindmillClient.headers windmill_client) in
  reply (backend w (served w) post) = Answer r0 ->
  200 <= status_code r0 <= 299 ->
  reply (backend w (S (served w)) get) = Answer r1 ->
  status_code r1 = 200 ->
  body r1 = NotJson msg ->
  WindmillClient.run_script windmill_client script_path args true 300 w
  = Some (Raise (mkExc JSONDecodeError msg), answered get (answered post w)).
Proof.
  intros post get Hr0 Hc0 Hr1 Hc1 Hb1.
  rewrite (run_script_accepted _ _ _ _ _ _ Hr0 Hc0), _wait_for_job_unfold.
  unfold WindmillClient.poll_budget. rewrite wait_loop_unfold.
  rewrite (proj2 (within_budget_iff _ 300)).
  - by rewrite (poll_undecodable windmill_client _ _ _ (answered post w) r1 msg Hr1 Hc1 Hb1).
  - change (inject_Z 300) with 300%Q. lra.
Qed.
End SingleScript.

(** X8.  [execute_single_script] always returns a response and never
    raises.  The response counts one step in all; it is completed with
    that step counted and no error, or failed with no step counted, an
    error text and no result. *)
Theorem single_script_response_invariant
    (windmill_client : WindmillClient.t) (script_path : string)
    (args : gmap string Any) (user_id : string) (w : World) :
  exists response w',
    ExecutorAgent.execute_single_script windmill_client script_path args user_id w
    = Some (Ok response, w') /\
    TaskResponse.total_steps response = 1 /\
    ((TaskResponse.status response = COMPLETED /\
      TaskResponse.steps_completed response = 1 /\
      TaskResponse.error response = None)
     \/
     (TaskResponse.status response = FAILED /\
      TaskResponse.steps_completed response = 0 /\
      is_Some (TaskResponse.error response) /\
      TaskResponse.result response = PyNone)).
Proof.
  pose proof (execute_single_script_cases windmill_client script_path args user_id w) as Hc.
  destruct (run_script_returns windmill_client script_path args true 300 w)
    as ([result|e] & w' & Hrun); rewrite Hrun in Hc; rewrite Hc.
  - eexists _, _. split; [done|].
    destruct (run_script_waited _ _ _ _ _ _ _ Hrun)
      as [(Hs & He & _) | ([Hs|Hs] & He & _)]; rewrite Hs; simpl; eauto 10.
  - eexists _, _. split; [done|]. simpl. eauto 10.
Qed.

(** X9.  When the job is accepted and the first poll is answered 200 with
    a body that is not JSON, [execute_single_script] does not raise: the
    response is failed, its error is the decoder's message, and its
    [task_id] is empty although the job had an id. *)
Theorem single_script_survives_bad_json
    (windmill_client : WindmillClient.t) (script_path : string)
    (args : gmap string Any) (user_id : string) (w : World)
    (r0 r1 : Response) (msg : string) :
  let post := WindmillClient.submit_request windmill_client script_path args in
  let get := GET (WindmillClient.poll_url windmill_client (strip dquote (text r0)))
               (WindmillClient.headers windmill_client) in
  reply (backend w (served w) post) = Answer r0 ->
  200 <= status_code r0 <= 299 ->
  reply (backend w (S (served w)) get) = Answer r1 ->
  status_code r1 = 200 ->
  body r1 = NotJson msg ->
  exists t w',
    ExecutorAgent.execute_single_script windmill_client script_path args user_id w
    = Some (Ok (TaskResponse.mk "" FAILED PyNone (Some msg) t 0 1), w').
Proof.
  intros post get Hr0 Hc0 Hr1 Hc1 Hb1.
  pose proof (execute_single_script_cases windmill_client script_path args user_id w) as Hc.
  rewrite (run_script_undecodable _ _ _ _ _ _ _ Hr0 Hc0 Hr1 Hc1 Hb1) in Hc.
  rewrite Hc. by eexists _, _.
Qed.

Lemma single_script_survives_bad_json_witness :
  exists t w',
    ExecutorAgent.execute_single_script Scenario.client "f/reports/build" ∅ "user-1"
      Scenario.garbled
    = Some (Ok (TaskResponse.mk "" FAILED PyNone
                  (Some "Expecting value: line 1 column 1 (char 0)") t 0 1), w').
Proof.
  apply (single_script_survives_bad_json Scenario.client "f/reports/build" ∅ "user-1"
           Scenario.garbled Scenario.job_started Scenario.not_json).
  - reflexivity.
  - simpl. lia.
  - reflexivity.
  - reflexivity.
  - reflexivity.
Defined.

(** ** The walk, beyond the claims *)

Section Walk.
Import ExecutorAgent.
Variable windmill_client : WindmillClient.t.

Local Abbreviation step_done step result :=
  (ExecutionStep.set_result result (ExecutionStep.set_status COMPLETED step)).
Local Abbreviation step_broken step e :=
  (ExecutionStep.set_error (Some (exc_str e)) (ExecutionStep.set_status FAILED step)).

(** A step whose dependencies are met and whose dispatch raises. *)
Lemma walk_head_fails step rest l w e w' :
  (forall d, d ∈ ExecutionStep.depends_on step -> is_Some (step_results l !! d)) ->
  _execute_step windmill_client step (step_results l) w = Some (Raise e, w') ->
  walk windmill_client (step :: rest) l w
  = Some (Ok (step_broken step e :: rest,
              mkLocals (completed_steps l) (step_results l) (final_result l)
                (Some (step_failed step e))), w').
Proof.
  intros Hdeps Hrun. rewrite walk_cons. unfold _check_dependencies.
  rewrite (proj2 (all_present_true _ _) Hdeps). simpl. by rewrite Hrun.
Qed.

Lemma _execute_step_scripted step previous_results path w :
  ExecutionStep.script_path step = Some path ->
  path <> "" ->
  _execute_step windmill_client step previous_results w
  = match WindmillClient.run_script windmill_client path
            (prepared_input step previous_results) true 300 w with
    | Some (Ok result, w') => remote_outcome result w'
    | Some (Raise e, w') => Some (Raise e, w')
    | None => None
    end.
Proof.
  intros Hpath Hne. unfold _execute_step. rewrite Hpath. simpl.
  destruct (String.eqb_spec path ""); [done|]. simpl. unfold bind.
  by destruct (WindmillClient.run_script _ _ _ _ _ _) as [[[result|e] w']|].
Qed.

(** The walk changes status, result and error only. *)
Lemma walk_identity steps : forall l w steps' l' w',
  walk windmill_client steps l w = Some (Ok (steps', l'), w') ->
  Forall2 same_identity steps steps'.
Proof.
  induction steps as [|step rest IH]; intros l w steps' l' w' Hrun.
  - simpl in Hrun. unfold ret in Hrun. simplify_eq. constructor.
  - rewrite walk_cons in Hrun. destruct (negb _).
    + simplify_eq. apply Forall2_same_length_lookup_2; [done|].
      intros i x y Hx Hy. by simplify_eq.
    + destruct (_execute_step _ _ _ _) as [[[result|e] w1]|]; [| |done].
      * destruct (walk _ rest _ _) as [[[[rest' l1] | e] w2]|] eqn:Hrest; [|done|done].
        simplify_eq. constructor; [done | by eapply IH].
      * simplify_eq. constructor; [done|].
        apply Forall2_same_length_lookup_2; [done|].
        intros i x y Hx Hy. by simplify_eq.
Qed.

(** How far the walk got: [n] steps completed at the front, the step after
    them failed or as it was, the steps after that as they were. *)
Lemma walk_progress steps : forall l w steps' l' w',
  walk windmill_client steps l w = Some (Ok (steps', l'), w') ->
  exists n : nat,
    completed_steps l' = completed_steps l + Z.of_nat n /\
    (n <= length steps)%nat /\
    Forall (fun s => ExecutionStep.status s = COMPLETED) (take n steps') /\
    drop (S n) steps' = drop (S n) steps /\
    (forall s', steps' !! n = Some s' ->
                ExecutionStep.status s' = FAILED \/ steps !! n = Some s') /\
    final_result l'
    = from_option ExecutionStep.result (final_result l) (last (take n steps')).
Proof.
  induction steps as [|step rest IH]; intros l w steps' l' w' Hrun.
  - simpl in Hrun. unfold ret in Hrun. simplify_eq. exists 0%nat.
    repeat split; [lia | done | done | done].
  - rewrite walk_cons in Hrun. destruct (negb _).
    { simplify_eq. exists 0%nat. simpl.
      repeat split; [lia | lia | done | by right]. }
    destruct (_execute_step _ _ _ _) as [[[result|e] w1]|]; [| |done].
    2:{ simplify_eq. exists 0%nat. simpl.
        repeat split; [lia | lia | done | ].
        intros s' Hs'. left. by simplify_eq. }
    destruct (walk _ rest _ _) as [[[[rest' l1] | e] w2]|] eqn:Hrest; [|done|done].
    simplify_eq.
    destruct (IH _ _ _ _ _ Hrest) as (n & Hcount & Hn & Hall & Hdrop & Hnth & Hfinal).
    simpl in Hcount, Hfinal.
    exists (S n). repeat split.
    + lia.
    + simpl. lia.
    + simpl. by constructor.
    + done.
    + done.
    + rewrite Hfinal. simpl.
      destruct (take n rest') as [|s t]; [done|].
      rewrite last_cons_cons. apply last_result_default.
Qed.

(** Steps without a script leave the world alone. *)
Lemma walk_offline steps : forall l w steps' l' w',
  Forall (fun s => truthy (ExecutionStep.script_path s) = false) steps ->
  walk windmill_client steps l w = Some (Ok (steps', l'), w') ->
  w' = w.
Proof.
  induction steps as [|step rest IH]; intros l w steps' l' w' Hoff Hrun.
  - simpl in Hrun. unfold ret in Hrun. by simplify_eq.
  - apply Forall_cons in Hoff as [Hstep Hrest].
    rewrite walk_cons in Hrun. destruct (negb _); [by simplify_eq|].
    unfold _execute_step in Hrun. rewrite Hstep in Hrun. unfold ret in Hrun.
    destruct (walk _ rest _ _) as [[[[rest' l1] | e] w2]|] eqn:Hwalk; [|done|done].
    simplify_eq. by eapply IH.
Qed.

(** In a well-ordered list of steps the walk finds every dependency met. *)
Lemma walk_well_ordered steps : forall l w steps' l' w',
  (forall i s d,
     steps !! i = Some s -> d ∈ ExecutionStep.depends_on s ->
     is_Some (step_results l !! d) \/
     exists j s', (j < i)%nat /\ steps !! j = Some s' /\
                  ExecutionStep.step_number s' = d) ->
  walk windmill_client steps l w = Some (Ok (steps', l'), w') ->
  error l' = error l \/
  exists step e, step ∈ steps /\ error l' = Some (step_failed step e).
Proof.
  induction steps as [|step rest IH]; intros l w steps' l' w' Hord Hrun.
  - simpl in Hrun. unfold ret in Hrun. simplify_eq. by left.
  - rewrite walk_cons in Hrun.
    assert (Hdeps : _check_dependencies step (step_results l) = true).
    { apply all_present_true. intros d Hd.
      destruct (Hord 0%nat step d eq_refl Hd) as [?|(j & s' & Hj & _)]; [done | lia]. }
    rewrite Hdeps in Hrun. simpl in Hrun.
    destruct (_execute_step _ _ _ _) as [[[result|e] w1]|]; [| |done].
    + destruct (walk _ rest _ _) as [[[[rest' l1] | e] w2]|] eqn:Hrest; [|done|done].
      simplify_eq.
      eapply IH in Hrest as [Herr | (s & e & Hs & Herr)].
      * by left.
      * right. exists s, e. split; [by right | done].
      * intros i s d Hs Hd.
        destruct (Hord (S i) s d Hs Hd) as [Hsome | (j & s' & Hj & Hs' & Hnum)].
        -- left. simpl. rewrite lookup_insert. case_decide; [by eexists | done].
        -- destruct j as [|j].
           ++ left. simpl in Hs'. simplify_eq. simpl. rewrite lookup_insert_eq. by eexists.
           ++ right. exists j, s'. split; [lia | done].
    + simplify_eq. right. exists step, e. split; [by left | done].
Qed.

(** Every step sends at most 302 requests: one submission and the polls
    of a 300-second wait. *)
Lemma walk_requests steps : forall l w r w',
  walk windmill_client steps l w = Some (r, w') ->
  (served w <= served w' <= served w + 302 * length steps)%nat.
Proof.
  induction steps as [|step rest IH]; intros l w r w' Hrun.
  - simpl in Hrun. unfold ret in Hrun. simplify_eq. lia.
  - rewrite walk_cons in Hrun. destruct (negb _); [simplify_eq; simpl; lia|].
    assert (Hstep : forall r1 w1,
      _execute_step windmill_client step (step_results l) w = Some (r1, w1) ->
      (served w <= served w1 <= served w + 302)%nat).
    { intros r1 w1 Hexec. unfold _execute_step in Hexec.
      destruct (truthy _); [|unfold ret in Hexec; simplify_eq; lia].
      unfold bind in Hexec.
      destruct (WindmillClient.run_script _ _ _ _ _ _) as [[[result|e] w2]|] eqn:Hrs;
        [| |done].
      - apply run_script_requests in Hrs.
        unfold remote_outcome, ret, raise in Hexec.
        destruct (String.eqb _ _); simplify_eq; simpl in Hrs; lia.
      - apply run_script_requests in Hrs. simplify_eq. simpl in Hrs. lia. }
    destruct (_execute_step _ _ _ _) as [[[result|e] w1]|] eqn:Hexec; [| |done].
    + specialize (Hstep _ _ eq_refl).
      destruct (walk _ rest _ _) as [[[[rest' l1] | e] w2]|] eqn:Hrest; [| |done].
      * apply IH in Hrest. simplify_eq. simpl length. lia.
      * apply IH in Hrest. simplify_eq. simpl length. lia.
    + specialize (Hstep _ _ eq_refl). simplify_eq. simpl length. lia.
Qed.
End Walk.

(** X10.  A step whose job is accepted and then never finishes, polled at
    a URL httpx sends to: once the 300 seconds of [_execute_step]'s wait
    are spent the walk stops with the error
    ["Step <N> failed: Job timed out after 300s"].  The step is left with
    status failed and the error ["Job timed out after 300s"], its result
    and everything else as they were; the steps after it are untouched. *)
Theorem stuck_job_fails_its_step
    (windmill_client : WindmillClient.t) (step : ExecutionStep.t)
    (rest : list ExecutionStep.t) (l : ExecutorAgent.Locals) (w : World)
    (path : string) (r0 : Response) :
  let post := WindmillClient.submit_request windmill_client path
                (ExecutorAgent.prepared_input step (ExecutorAgent.step_results l)) in
  ExecutionStep.script_path step = Some path ->
  path <> "" ->
  (forall d, d ∈ ExecutionStep.depends_on step ->
             is_Some (ExecutorAgent.step_results l !! d)) ->
  reply (backend w (served w) post) = Answer r0 ->
  200 <= status_code r0 <= 299 ->
  no_control_character
    (WindmillClient.poll_url windmill_client (strip dquote (text r0))) = true ->
  polls_never_answer (answered post w) ->
  exists step' w',
    ExecutorAgent.walk windmill_client (step :: rest) l w
    = Some (Ok (step' :: rest,
                ExecutorAgent.mkLocals (ExecutorAgent.completed_steps l)
                  (ExecutorAgent.step_results l) (ExecutorAgent.final_result l)
                  (Some ("Step " +:+ str_int (ExecutionStep.step_number step)
                         +:+ " failed: Job timed out after 300s"))), w') /\
    ExecutionStep.status step' = FAILED /\
    ExecutionStep.error step' = Some "Job timed out after 300s" /\
    ExecutionStep.result step' = ExecutionStep.result step /\
    same_identity step step' /\
    (served w < served w')%nat.
Proof.
  intros post Hpath Hne Hdeps Hr0 Hc0 _ Hnever.
  destruct (wait_loop_gives_up windmill_client
              (WindmillClient.poll_url windmill_client (strip dquote (text r0)))
              (strip dquote (text r0)) 300 (now (answered post w))
              (WindmillClient.poll_budget 300) 0 (answered post w) Hnever)
    as [w' Hwait]; [apply elapsed_at_start | apply poll_budget_enough |].
  eexists _, w'. split.
  - apply (walk_head_fails windmill_client step rest l w
             (mkExc PlainException "Job timed out after 300s") w' Hdeps).
    rewrite (_execute_step_scripted windmill_client step _ path w Hpath Hne).
    fold post. rewrite (run_script_accepted _ _ _ _ _ _ Hr0 Hc0).
    rewrite _wait_for_job_unfold. fold post. by rewrite Hwait.
  - split; [reflexivity|]. split; [reflexivity|]. split; [reflexivity|].
    split; [by repeat split|].
    pose proof (wait_loop_polls _ _ _ _ _ _ 0 _ _ _ Hwait
                  (elapsed_at_start (answered post w))) as Hb.
    simpl in Hb. lia.
Qed.

Lemma stuck_job_fails_its_step_witness :
  exists step' w',
    ExecutorAgent.walk Scenario.client [Scenario.scripted 1 "f/reports/build" []]
      ExecutorAgent.initial Scenario.stuck
    = Some (Ok ([step'],
                ExecutorAgent.mkLocals 0 ∅ PyNone
                  (Some "Step 1 failed: Job timed out after 300s")), w') /\
    ExecutionStep.status step' = FAILED /\
    ExecutionStep.error step' = Some "Job timed out after 300s" /\
    ExecutionStep.result step' = PyNone /\
    same_identity (Scenario.scripted 1 "f/reports/build" []) step' /\
    (served Scenario.stuck < served w')%nat.
Proof.
  apply (stuck_job_fails_its_step Scenario.client (Scenario.scripted 1 "f/reports/build" [])
           [] ExecutorAgent.initial Scenario.stuck "f/reports/build" Scenario.job_started).
  - reflexivity.
  - discriminate.
  - intros d Hd. by apply elem_of_nil in Hd.
  - reflexivity.
  - simpl. lia.
  - reflexivity.
  - intros n req Hn. simpl in Hn. destruct n as [|n]; [lia | reflexivity].
Defined.

(** X11.  A step whose submission fails: the walk stops with
    ["Step <N> failed: <cause>"]; when the cause has no text, as the
    exception of a read timeout has none, the message reads
    ["Step <N> failed: Script execution failed"].  The step is left with
    status failed and that cause as its error, its result and everything
    else as they were; the steps after it are untouched and the submission
    is the only request sent. *)
Theorem rejected_submission_fails_its_step
    (windmill_client : WindmillClient.t) (step : ExecutionStep.t)
    (rest : list ExecutionStep.t) (l : ExecutorAgent.Locals) (w : World)
    (path cause : string) :
  let post := WindmillClient.submit_request windmill_client path
                (ExecutorAgent.prepared_input step (ExecutorAgent.step_results l)) in
  let shown := if String.eqb cause "" then "Script execution failed" else cause in
  ExecutionStep.script_path step = Some path ->
  path <> "" ->
  (forall d, d ∈ ExecutionStep.depends_on step ->
             is_Some (ExecutorAgent.step_results l !! d)) ->
  submission_fails w post cause ->
  exists step',
    ExecutorAgent.walk windmill_client (step :: rest) l w
    = Some (Ok (step' :: rest,
                ExecutorAgent.mkLocals (ExecutorAgent.completed_steps l)
                  (ExecutorAgent.step_results l) (ExecutorAgent.final_result l)
                  (Some ("Step " +:+ str_int (ExecutionStep.step_number step)
                         +:+ " failed: " +:+ shown))), answered post w) /\
    ExecutionStep.status step' = FAILED /\
    ExecutionStep.error step' = Some shown /\
    ExecutionStep.result step' = ExecutionStep.result step /\
    same_identity step step'.
Proof.
  intros post shown Hpath Hne Hdeps Hfail. eexists. split.
  - apply (walk_head_fails windmill_client step rest l w
             (mkExc PlainException shown) (answered post w) Hdeps).
    rewrite (_execute_step_scripted windmill_client step _ path w Hpath Hne).
    fold post. by rewrite (run_script_rejected _ _ _ _ _ _ _ Hfail).
  - split; [reflexivity|]. split; [reflexivity|]. split; [reflexivity|].
    by repeat split.
Qed.

Lemma rejected_submission_fails_its_step_witness :
  exists step',
    ExecutorAgent.walk Scenario.client [Scenario.scripted 1 "f/reports/build" []]
      ExecutorAgent.initial Scenario.mute
    = Some (Ok ([step'],
                ExecutorAgent.mkLocals 0 ∅ PyNone
                  (Some "Step 1 failed: Script execution failed")),
            answered (WindmillClient.submit_request Scenario.client "f/reports/build" ∅)
              Scenario.mute) /\
    ExecutionStep.status step' = FAILED /\
    ExecutionStep.error step' = Some "Script execution failed" /\
    ExecutionStep.result step' = PyNone /\
    same_identity (Scenario.scripted 1 "f/reports/build" []) step'.
Proof.
  apply (rejected_submission_fails_its_step Scenario.client
           (Scenario.scripted 1 "f/reports/build" []) [] ExecutorAgent.initial
           Scenario.mute "f/reports/build" "").
  - reflexivity.
  - discriminate.
  - intros d Hd. by apply elem_of_nil in Hd.
  - by apply network_error.
Defined.

(** X12.  An execution changes nothing of a plan but statuses, results
    and errors: the plan keeps its [task_id], [user_id],
    [original_request], [skill] and [created_at], and every step its
    [step_number], [description], [agent], [script_path], [input_params]
    and [depends_on].  The injected results go into a copy of
    [input_params], never into the step. *)
Theorem execution_keeps_identity
    (windmill_client : WindmillClient.t) (plan : ExecutionPlan.t) (w : World) :
  exists response plan' w',
    ExecutorAgent._execute_plan windmill_client plan w = Some (Ok (response, plan'), w') /\
    ExecutionPlan.task_id plan' = ExecutionPlan.task_id plan /\
    ExecutionPlan.user_id plan' = ExecutionPlan.user_id plan /\
    ExecutionPlan.original_request plan' = ExecutionPlan.original_request plan /\
    ExecutionPlan.skill plan' = ExecutionPlan.skill plan /\
    ExecutionPlan.created_at plan' = ExecutionPlan.created_at plan /\
    Forall2 same_identity (ExecutionPlan.steps plan) (ExecutionPlan.steps plan').
Proof.
  destruct (walk_summary windmill_client (ExecutionPlan.steps plan)
              ExecutorAgent.initial w) as (steps' & l & w' & Hwalk & _).
  eexists _, _, _. split; [by apply _execute_plan_walked|].
  simpl. repeat split. by eapply walk_identity.
Qed.

(** X13.  How an execution leaves the steps.  With [n] the response's
    [steps_completed]: the first [n] steps are completed, the step after
    them, if there is one, is failed or exactly as it was, and every step
    after that is exactly as it was.  The response's result is the result
    recorded on the last of the [n] completed steps, [None] if [n] is 0. *)
Theorem execution_progress
    (windmill_client : WindmillClient.t) (plan : ExecutionPlan.t) (w : World) :
  exists response plan' w' (n : nat),
    ExecutorAgent._execute_plan windmill_client plan w = Some (Ok (response, plan'), w') /\
    TaskResponse.steps_completed response = Z.of_nat n /\
    Forall (fun s => ExecutionStep.status s = COMPLETED)
      (take n (ExecutionPlan.steps plan')) /\
    (forall s', ExecutionPlan.steps plan' !! n = Some s' ->
                ExecutionStep.status s' = FAILED \/
                ExecutionPlan.steps plan !! n = Some s') /\
    drop (S n) (ExecutionPlan.steps plan') = drop (S n) (ExecutionPlan.steps plan) /\
    TaskResponse.result response
    = from_option ExecutionStep.result PyNone (last (take n (ExecutionPlan.steps plan'))).
Proof.
  destruct (walk_summary windmill_client (ExecutionPlan.steps plan)
              ExecutorAgent.initial w) as (steps' & l & w' & Hwalk & _).
  destruct (walk_progress windmill_client _ _ _ _ _ _ Hwalk)
    as (n & Hcount & _ & Hall & Hdrop & Hnth & Hfinal).
  eexists _, _, _, n. split; [by apply _execute_plan_walked|].
  simpl. repeat split; done.
Qed.

(** X14.  A plan none of whose steps has a script is executed without a
    single request and without waiting: the world is as it was. *)
Theorem scriptless_plan_is_offline
    (windmill_client : WindmillClient.t) (plan : ExecutionPlan.t) (w : World) :
  Forall (fun s => truthy (ExecutionStep.script_path s) = false)
    (ExecutionPlan.steps plan) ->
  exists response plan',
    ExecutorAgent._execute_plan windmill_client plan w = Some (Ok (response, plan'), w).
Proof.
  intros Hoff.
  destruct (walk_summary windmill_client (ExecutionPlan.steps plan)
              ExecutorAgent.initial w) as (steps' & l & w' & Hwalk & _).
  pose proof (walk_offline windmill_client _ _ _ _ _ _ Hoff Hwalk) as ->.
  eexists _, _. by apply _execute_plan_walked.
Qed.

Lemma scriptless_plan_is_offline_witness :
  exists response plan',
    ExecutorAgent._execute_plan Scenario.client
      (Scenario.plan_of [Scenario.first; Scenario.prefilled; Scenario.last_one])
      Scenario.down
    = Some (Ok (response, plan'), Scenario.down).
Proof.
  apply (scriptless_plan_is_offline Scenario.client
           (Scenario.plan_of [Scenario.first; Scenario.prefilled; Scenario.last_one])
           Scenario.down).
  repeat constructor.
Defined.

(** X15.  When every dependency of every step is the number of a step
    earlier in the plan, no execution ends on unmet dependencies: the
    response is completed, or its error is the ["Step <N> failed: ..."] of
    a step of the plan whose dispatch raised. *)
Theorem well_ordered_plan_meets_dependencies
    (windmill_client : WindmillClient.t) (plan : ExecutionPlan.t) (w : World) :
  well_ordered (ExecutionPlan.steps plan) ->
  exists response plan' w',
    ExecutorAgent._execute_plan windmill_client plan w = Some (Ok (response, plan'), w') /\
    ((TaskResponse.status response = COMPLETED /\ TaskResponse.error response = None)
     \/
     (TaskResponse.status response = FAILED /\
      exists step e,
        step ∈ ExecutionPlan.steps plan /\
        TaskResponse.error response
        = Some ("Step " +:+ str_int (ExecutionStep.step_number step)
                +:+ " failed: " +:+ exc_str e))).
Proof.
  intros Hord.
  destruct (walk_summary windmill_client (ExecutionPlan.steps plan)
              ExecutorAgent.initial w) as (steps' & l & w' & Hwalk & _).
  eexists _, _, _. split; [by apply _execute_plan_walked|]. simpl.
  destruct (walk_well_ordered windmill_client _ _ _ _ _ _
              (fun i s d Hs Hd => or_intror (Hord i s d Hs Hd)) Hwalk)
    as [Herr | (step & e & Hstep & Herr)]; rewrite Herr.
  - by left.
  - right. split; [done|]. by exists step, e.
Qed.

Lemma well_ordered_plan_meets_dependencies_witness :
  exists response plan' w',
    ExecutorAgent._execute_plan Scenario.client
      (Scenario.plan_of [Scenario.first; Scenario.report]) Scenario.third_time_lucky
    = Some (Ok (response, plan'), w') /\
    ((TaskResponse.status response = COMPLETED /\ TaskResponse.error response = None)
     \/
     (TaskResponse.status response = FAILED /\
      exists step e,
        step ∈ [Scenario.first; Scenario.report] /\
        TaskResponse.error response
        = Some ("Step " +:+ str_int (ExecutionStep.step_number step)
                +:+ " failed: " +:+ exc_str e))).
Proof.
  apply (well_ordered_plan_meets_dependencies Scenario.client
           (Scenario.plan_of [Scenario.first; Scenario.report]) Scenario.third_time_lucky).
  intros i s d Hs Hd.
  destruct i as [|[|i]]; simpl in Hs; simplify_eq.
  - by apply elem_of_nil in Hd.
  - apply list_elem_of_In in Hd. simpl in Hd. destruct Hd as [<-|[]].
    exists 0%nat, Scenario.first. split; [lia | done].
Defined.

(** X16.  An execution sends at most 302 requests per step of the plan:
    for each step one submission and the polls of its 300-second wait. *)
Theorem execution_request_bound
    (windmill_client : WindmillClient.t) (plan : ExecutionPlan.t) (w : World) :
  exists response plan' w',
    ExecutorAgent._execute_plan windmill_client plan w = Some (Ok (response, plan'), w') /\
    (served w <= served w'
     <= served w + 302 * length (ExecutionPlan.steps plan))%nat.
Proof.
  destruct (walk_summary windmill_client (ExecutionPlan.steps plan)
              ExecutorAgent.initial w) as (steps' & l & w' & Hwalk & _).
  eexists _, _, _. split; [by apply _execute_plan_walked|].
  by eapply walk_requests.
Qed.

(** ** Substrings *)

Lemma app_cons (a : Ascii.ascii) (s t : string) : String a s +:+ t = String a (s +:+ t).
Proof. reflexivity. Qed.

Lemma startswith_spec (p : string) : forall s : string,
  startswith p s = true <-> exists b, s = p +:+ b.
Proof.
  induction p as [|a p IH]; intros s; simpl.
  - split; [|done]. intros _. by exists s.
  - destruct s as [|c s].
    + split; [done|]. intros [b Hb]. by rewrite app_cons in Hb.
    + destruct (Ascii.eqb_spec a c) as [->|Hne].
      * rewrite IH. split.
        -- intros [b ->]. by exists b.
        -- intros [b Hb]. rewrite app_cons in Hb. exists b. by simplify_eq.
      * split; [done|]. intros [b Hb]. rewrite app_cons in Hb. by simplify_eq.
Qed.

Lemma occurs_in_spec (sub : string) : forall s : string,
  occurs_in sub s = true <-> exists a b, s = a +:+ sub +:+ b.
Proof.
  induction s as [|c s IH].
  - change (occurs_in sub "") with (startswith sub ""). rewrite startswith_spec. split.
    + intros [b Hb]. by exists "", b.
    + intros (a & b & Hab). destruct a as [|x a]; [by exists b|].
      by rewrite app_cons in Hab.
  - change (occurs_in sub (String c s))
      with (if startswith sub (String c s) then true else occurs_in sub s).
    destruct (startswith sub (String c s)) eqn:Hp.
    + split; [|done]. intros _. apply startswith_spec in Hp as [b Hb].
      by exists "", b.
    + rewrite IH. split.
      * intros (a & b & ->). by exists (String c a), b.
      * intros (a & b & Hab). destruct a as [|x a].
        -- assert (startswith sub (String c s) = true) as Hyes
             by (apply startswith_spec; by exists b).
           congruence.
        -- rewrite app_cons in Hab. exists a, b. by simplify_eq.
Qed.

(** ** The coordinator *)

Section Coordinator.
Import CoordinatorAgent.
Variable lower : string -> string.

Lemma any_keyword_spec keywords content_lower :
  any_keyword keywords content_lower = true <-> mentions keywords content_lower.
Proof.
  unfold mentions. induction keywords as [|k ks IH]; simpl.
  - split; [done|]. intros (k & a & b & Hk & _). by apply elem_of_nil in Hk.
  - destruct (occurs_in k content_lower) eqn:Hk.
    + split; [|done]. intros _. apply occurs_in_spec in Hk as (a & b & ->).
      exists k, a, b. split; [by left | done].
    + rewrite IH. split.
      * intros (k' & a & b & Hin & Heq). exists k', a, b. split; [by right | done].
      * intros (k' & a & b & [->|Hin]%elem_of_cons & Heq).
        -- assert (occurs_in k content_lower = true) as Hyes
             by (apply occurs_in_spec; by exists a, b).
           congruence.
        -- by exists k', a, b.
Qed.

Lemma _detect_skill_scan content :
  _detect_skill lower content =
  if any_keyword ["post"; "tweet"; "linkedin"; "instagram"; "facebook"; "social"]
       (lower content) then "social_media"
  else if any_keyword ["analyze"; "metrics"; "report"; "dashboard"; "statistics"; "data"]
            (lower content) then "analytics"
  else if any_keyword ["automate"; "schedule"; "workflow"; "flow"; "pipeline"]
            (lower content) then "workflow"
  else "core".
Proof.
  unfold _detect_skill, skill_keywords, first_skill.
  repeat (match goal with |- context [any_keyword ?ks ?c] =>
            destruct (any_keyword ks c) eqn:?; try reflexivity end).
Qed.
End Coordinator.

(** X17.  [_detect_skill] answers with the first of social_media, analytics
    and workflow one of whose keywords occurs in the lowered content, in
    that order, so a request to "schedule a post" is social_media, not
    workflow; without any of them it answers core, whose own keywords make
    no difference. *)
Theorem detect_skill_priority (lower : string -> string) (content : string) :
  let social := ["post"; "tweet"; "linkedin"; "instagram"; "facebook"; "social"] in
  let analytics := ["analyze"; "metrics"; "report"; "dashboard"; "statistics"; "data"] in
  let workflow := ["automate"; "schedule"; "workflow"; "flow"; "pipeline"] in
  let skill := CoordinatorAgent._detect_skill lower content in
  (mentions social (lower content) -> skill = "social_media") /\
  (~ mentions social (lower content) -> mentions analytics (lower content) ->
   skill = "analytics") /\
  (~ mentions social (lower content) -> ~ mentions analytics (lower content) ->
   mentions workflow (lower content) -> skill = "workflow") /\
  (~ mentions social (lower content) -> ~ mentions analytics (lower content) ->
   ~ mentions workflow (lower content) -> skill = "core").
Proof.
  intros social analytics workflow skill. subst skill.
  rewrite _detect_skill_scan. fold social analytics workflow.
  pose proof (any_keyword_spec social (lower content)) as Hs.
  pose proof (any_keyword_spec analytics (lower content)) as Ha.
  pose proof (any_keyword_spec workflow (lower content)) as Hw.
  destruct (CoordinatorAgent.any_keyword social _);
    destruct (CoordinatorAgent.any_keyword analytics _);
    destruct (CoordinatorAgent.any_keyword workflow _);
    repeat split; intros; try done;
    repeat match goal with
           | H : ~ mentions _ _ |- _ => exfalso; apply H; tauto
           | H : mentions _ _ |- _ => first [apply Hs in H | apply Ha in H | apply Hw in H]; done
           end.
Qed.

Lemma detect_skill_priority_witness :
  CoordinatorAgent._detect_skill Scenario.ascii_lower "Schedule a POST for tomorrow"
  = "social_media".
Proof.
  apply (detect_skill_priority Scenario.ascii_lower "Schedule a POST for tomorrow").
  exists "post", "schedule a ", " for tomorrow". split; [|reflexivity].
  apply list_elem_of_In. simpl. by left.
Defined.

(** X18.  [handle_task_request] uses the skill the request names, whatever
    it is and whatever the content says, and detects one only when the
    request names none or names the empty string.  The task id is
    ["task_"] followed by the session id and the status is planning. *)
Theorem handle_task_request_skill (lower : string -> string) (request : TaskRequest.t) :
  let answer := CoordinatorAgent.handle_task_request lower request in
  (forall skill, TaskRequest.skill request = Some skill -> skill <> "" ->
     answer !! "skill" = Some (PyStr skill)) /\
  (TaskRequest.skill request = None \/ TaskRequest.skill request = Some "" ->
     answer !! "skill"
     = Some (PyStr (CoordinatorAgent._detect_skill lower (TaskRequest.content request)))) /\
  answer !! "task_id" = Some (PyStr ("task_" +:+ TaskRequest.session_id request)) /\
  answer !! "user_id" = Some (PyStr (TaskRequest.user_id request)) /\
  answer !! "status" = Some (PyStr "planning").
Proof.
  intros answer. subst answer. unfold CoordinatorAgent.handle_task_request.
  split; [|split; [|split; [|split]]].
  - intros skill Hskill Hne. rewrite Hskill. simpl.
    destruct (String.eqb_spec skill ""); [done|]. simpl.
    by simplify_map_eq.
  - intros [Hskill|Hskill]; rewrite Hskill; simpl; by simplify_map_eq.
  - by simplify_map_eq.
  - by simplify_map_eq.
  - by simplify_map_eq.
Qed.

Lemma handle_task_request_skill_witness :
  CoordinatorAgent.handle_task_request Scenario.ascii_lower
    (TaskRequest.mk "user-1" "s-9" "Show me the metrics" None (Some "billing") ∅ ∅)
    !! "skill" = Some (PyStr "billing") /\
  CoordinatorAgent.handle_task_request Scenario.ascii_lower
    (TaskRequest.mk "user-1" "s-9" "Show me the metrics" None (Some "") ∅ ∅)
    !! "skill" = Some (PyStr "analytics").
Proof.
  split.
  - apply (handle_task_request_skill Scenario.ascii_lower
             (TaskRequest.mk "user-1" "s-9" "Show me the metrics" None (Some "billing") ∅ ∅));
      [reflexivity | discriminate].
  - apply (proj1 (proj2 (handle_task_request_skill Scenario.ascii_lower
             (TaskRequest.mk "user-1" "s-9" "Show me the metrics" None (Some "") ∅ ∅)))).
    by right.
Defined.

(** ** The planner *)

Section Planner.
Import PlannerAgent.
Variable lower : string -> string.

(** The step lists [_create_plan] makes, over the scripts of the skill. *)
Lemma _create_plan_steps task_id created_at content skill user_id :
  exists scripts : gmap string string,
    ExecutionPlan.steps (_create_plan lower task_id created_at content skill user_id)
    = if String.eqb skill "social_media" then
        (if any_word lower ["create"; "post"; "tweet"; "write"] content then
           [new_step 1 "Generate social media content" (scripts !! "create_post")
              (<["content_request" := PyStr content]>
                 (<["user_id" := PyStr user_id]> ∅)) []]
         else [])
        ++
        (if any_word lower ["schedule"; "later"; "tomorrow"] content then
           [new_step (if any_word lower ["create"; "post"; "tweet"; "write"] content
                      then 2 else 1)
              "Schedule the post" (scripts !! "schedule_post")
              (<["user_id" := PyStr user_id]> ∅)
              (if any_word lower ["create"; "post"; "tweet"; "write"] content
               then [1] else [])]
         else [])
      else if String.eqb skill "analytics" then
        new_step 1 "Fetch metrics data" (scripts !! "fetch_metrics")
          (<["query" := PyStr content]> (<["user_id" := PyStr user_id]> ∅)) []
        :: (if occurs_in "report" (lower content) then
              [new_step 2 "Generate report" (scripts !! "generate_report")
                 (<["user_id" := PyStr user_id]> ∅) [1]]
            else [])
      else
        [new_step 1 "Process request" (scripts !! "log_activity")
           (<["action" := PyStr "task_processed"]>
              (<["content" := PyStr content]>
                 (<["user_id" := PyStr user_id]> ∅))) []].
Proof.
  unfold _create_plan.
  set (scripts := match skill_scripts !! skill with
                  | Some scripts => scripts
                  | None => default ∅ (skill_scripts !! "core")
                  end).
  exists scripts. clearbody scripts. cbv zeta. cbn [ExecutionPlan.steps].
  destruct (String.eqb skill "social_media").
  - destruct (any_word lower ["create"; "post"; "tweet"; "write"] content);
      destruct (any_word lower ["schedule"; "later"; "tomorrow"] content); reflexivity.
  - destruct (String.eqb skill "analytics"); [|reflexivity].
    destruct (occurs_in "report" (lower content)); reflexivity.
Qed.

Lemma _create_plan_ordered task_id created_at content skill user_id :
  well_ordered
    (ExecutionPlan.steps (_create_plan lower task_id created_at content skill user_id)) /\
  (length (ExecutionPlan.steps
             (_create_plan lower task_id created_at content skill user_id)) <= 2)%nat /\
  (forall i s,
     ExecutionPlan.steps (_create_plan lower task_id created_at content skill user_id)
       !! i = Some s ->
     ExecutionStep.step_number s = Z.of_nat i + 1 /\
     ExecutionStep.status s = PENDING).
Proof.
  destruct (_create_plan_steps task_id created_at content skill user_id)
    as [scripts ->].
  unfold well_ordered.
  destruct (String.eqb skill "social_media");
    [destruct (any_word lower ["create"; "post"; "tweet"; "write"] content);
     destruct (any_word lower ["schedule"; "later"; "tomorrow"] content)
    |destruct (String.eqb skill "analytics");
     [destruct (occurs_in "report" (lower content))|]];
    (split; [|split]);
    try (simpl; lia);
    try (intros [|[|i]] s Hs; simpl in Hs; simplify_eq; done);
    intros [|[|i]] s d Hs Hd; simpl in Hs; simplify_eq; simpl in Hd;
    try (by apply elem_of_nil in Hd);
    apply list_elem_of_In in Hd; simpl in Hd; destruct Hd as [<-|[]];
    eexists 0%nat, _; (split; [lia | split; [reflexivity | reflexivity]]).
Qed.
End Planner.

Section Planning.
Import PlannerAgent.
Variable lower : string -> string.

Lemma any_word_spec words content :
  any_word lower words content = true <-> mentions words (lower content).
Proof.
  unfold any_word, mentions. rewrite existsb_exists. split.
  - intros (word & Hin & (a & b & Heq)%occurs_in_spec).
    exists word, a, b. split; [by apply list_elem_of_In | done].
  - intros (word & a & b & Hin & Heq). exists word.
    split; [by apply list_elem_of_In |]. apply occurs_in_spec. by exists a, b.
Qed.

(** The scripts of a skill that is none of the four in the table are
    those of core. *)
Lemma scripts_of_other_skill (skill : string) :
  skill <> "social_media" -> skill <> "analytics" -> skill <> "workflow" ->
  match skill_scripts !! skill with
  | Some scripts => scripts
  | None => default ∅ (skill_scripts !! "core")
  end !! "log_activity" = Some "f/openanalyst/core/log_activity".
Proof.
  intros Hs Ha Hw. unfold skill_scripts.
  rewrite (lookup_insert_ne _ "social_media" skill) by done.
  rewrite (lookup_insert_ne _ "analytics" skill) by done.
  rewrite (lookup_insert_ne _ "workflow" skill) by done.
  destruct (decide (skill = "core")) as [->|Hc].
  - reflexivity.
  - rewrite (lookup_insert_ne _ "core" skill) by done.
    rewrite lookup_empty. reflexivity.
Qed.
End Planning.

(** X19.  Every plan [_create_plan] makes has at most two steps, numbered
    1, 2 in the order they are listed, all pending, and every dependency
    of a step is the number of a step before it.  The plan carries the
    request as [original_request], the skill it was made for and the id
    drawn for it, and is pending. *)
Theorem planned_steps_are_ordered
    (lower : string -> string) (task_id created_at content skill user_id : string) :
  let plan := PlannerAgent._create_plan lower task_id created_at content skill user_id in
  well_ordered (ExecutionPlan.steps plan) /\
  (length (ExecutionPlan.steps plan) <= 2)%nat /\
  (forall i s, ExecutionPlan.steps plan !! i = Some s ->
     ExecutionStep.step_number s = Z.of_nat i + 1 /\
     ExecutionStep.status s = PENDING) /\
  ExecutionPlan.task_id plan = task_id /\
  ExecutionPlan.user_id plan = user_id /\
  ExecutionPlan.original_request plan = content /\
  ExecutionPlan.skill plan = Some skill /\
  ExecutionPlan.status plan = PENDING.
Proof.
  intros plan. subst plan.
  destruct (_create_plan_ordered lower task_id created_at content skill user_id)
    as (Hord & Hlen & Hnum).
  split; [done|]. split; [done|]. split; [done|]. repeat split.
Qed.

(** X20.  Executing a plan that [_create_plan] made never ends on unmet
    dependencies, whatever the request, the skill and the backend: the
    response is completed, or failed with the ["Step <N> failed: ..."] of
    a step whose dispatch raised.  At most 604 requests are sent. *)
Theorem planned_execution_meets_dependencies
    (lower : string -> string) (task_id created_at content skill user_id : string)
    (windmill_client : WindmillClient.t) (w : World) :
  let plan := PlannerAgent._create_plan lower task_id created_at content skill user_id in
  exists response plan' w',
    ExecutorAgent._execute_plan windmill_client plan w = Some (Ok (response, plan'), w') /\
    (served w' <= served w + 604)%nat /\
    ((TaskResponse.status response = COMPLETED /\ TaskResponse.error response = None)
     \/
     (TaskResponse.status response = FAILED /\
      exists step e,
        step ∈ ExecutionPlan.steps plan /\
        TaskResponse.error response
        = Some ("Step " +:+ str_int (ExecutionStep.step_number step)
                +:+ " failed: " +:+ exc_str e))).
Proof.
  intros plan.
  destruct (_create_plan_ordered lower task_id created_at content skill user_id)
    as (Hord & Hlen & _). fold plan in Hord, Hlen.
  destruct (walk_summary windmill_client (ExecutionPlan.steps plan)
              ExecutorAgent.initial w) as (steps' & l & w' & Hwalk & _).
  eexists _, _, _. split; [by apply _execute_plan_walked|]. split.
  - pose proof (walk_requests windmill_client _ _ _ _ _ Hwalk). lia.
  - simpl.
    destruct (walk_well_ordered windmill_client _ _ _ _ _ _
                (fun i s d Hs Hd => or_intror (Hord i s d Hs Hd)) Hwalk)
      as [Herr | (step & e & Hstep & Herr)]; rewrite Herr.
    + by left.
    + right. split; [done|]. by exists step, e.
Qed.

(** X21.  For the skill workflow the plan is one step without a script:
    the table of workflow scripts has no [log_activity].  Executing it
    sends no request and completes at once, with the step's input as the
    result. *)
Theorem workflow_plan_runs_offline
    (lower : string -> string) (task_id created_at content user_id : string)
    (windmill_client : WindmillClient.t) (w : World) :
  let input : gmap string Any :=
    <["action" := PyStr "task_processed"]>
      (<["content" := PyStr content]> (<["user_id" := PyStr user_id]> ∅)) in
  let plan := PlannerAgent._create_plan lower task_id created_at content "workflow" user_id in
  ExecutionPlan.steps plan = [PlannerAgent.new_step 1 "Process request" None input []] /\
  exists t plan',
    ExecutorAgent._execute_plan windmill_client plan w
    = Some (Ok (TaskResponse.mk task_id COMPLETED (PyDict input) None t 1 1, plan'), w).
Proof.
  intros input plan.
  assert (Hsteps : ExecutionPlan.steps plan
                   = [PlannerAgent.new_step 1 "Process request" None input []])
    by reflexivity.
  split; [exact Hsteps|]. eexists _, _.
  rewrite (_execute_plan_walked windmill_client plan w
             [ExecutionStep.set_result (PyDict input)
                (ExecutionStep.set_status COMPLETED
                   (PlannerAgent.new_step 1 "Process request" None input []))]
             (ExecutorAgent.mkLocals 1 (<[1 := PyDict input]> ∅) (PyDict input) None) w)
    by (rewrite Hsteps; reflexivity).
  reflexivity.
Qed.

(** X22.  For a skill that is not social_media, analytics or workflow,
    known to the table or not, the plan is the one step that runs the core
    [log_activity] script on the request. *)
Theorem other_skills_fall_back_to_core
    (lower : string -> string) (task_id created_at content skill user_id : string) :
  skill <> "social_media" -> skill <> "analytics" -> skill <> "workflow" ->
  ExecutionPlan.steps
    (PlannerAgent._create_plan lower task_id created_at content skill user_id)
  = [PlannerAgent.new_step 1 "Process request" (Some "f/openanalyst/core/log_activity")
       (<["action" := PyStr "task_processed"]>
          (<["content" := PyStr content]> (<["user_id" := PyStr user_id]> ∅))) []].
Proof.
  intros Hs Ha Hw. unfold PlannerAgent._create_plan. cbv zeta. cbn [ExecutionPlan.steps].
  destruct (String.eqb_spec skill "social_media"); [done|].
  destruct (String.eqb_spec skill "analytics"); [done|].
  by rewrite scripts_of_other_skill.
Qed.

Lemma other_skills_fall_back_to_core_witness :
  ExecutionPlan.steps
    (PlannerAgent._create_plan Scenario.ascii_lower "task-1" "2026-01-01T00:00:00"
       "What can you do?" "billing" "user-1")
  = [PlannerAgent.new_step 1 "Process request" (Some "f/openanalyst/core/log_activity")
       (<["action" := PyStr "task_processed"]>
          (<["content" := PyStr "What can you do?"]> (<["user_id" := PyStr "user-1"]> ∅))) []].
Proof.
  apply (other_skills_fall_back_to_core Scenario.ascii_lower "task-1" "2026-01-01T00:00:00"
           "What can you do?" "billing" "user-1"); discriminate.
Defined.

(** X23.  A social_media request that mentions none of create, post,
    tweet, write and none of schedule, later, tomorrow gets a plan without
    steps, and executing it reports completed: nothing done, no request
    sent, no result and no error. *)
Theorem idle_social_plan_completes
    (lower : string -> string) (task_id created_at content user_id : string)
    (windmill_client : WindmillClient.t) (w : World) :
  let plan := PlannerAgent._create_plan lower task_id created_at content
                "social_media" user_id in
  ~ mentions ["create"; "post"; "tweet"; "write"] (lower content) ->
  ~ mentions ["schedule"; "later"; "tomorrow"] (lower content) ->
  ExecutionPlan.steps plan = [] /\
  exists t plan',
    ExecutorAgent._execute_plan windmill_client plan w
    = Some (Ok (TaskResponse.mk task_id COMPLETED PyNone None t 0 0, plan'), w).
Proof.
  intros plan Hcreate Hschedule.
  assert (Hsteps : ExecutionPlan.steps plan = []).
  { destruct (_create_plan_steps lower task_id created_at content "social_media" user_id)
      as [scripts Heq]. fold plan in Heq. rewrite Heq.
    destruct (PlannerAgent.any_word lower ["create"; "post"; "tweet"; "write"] content) eqn:H1;
      [apply any_word_spec in H1; contradiction|].
    destruct (PlannerAgent.any_word lower ["schedule"; "later"; "tomorrow"] content) eqn:H2;
      [apply any_word_spec in H2; contradiction|].
    reflexivity. }
  split; [exact Hsteps|]. eexists _, _.
  rewrite (_execute_plan_walked windmill_client plan w [] ExecutorAgent.initial w)
    by (by rewrite Hsteps).
  reflexivity.
Qed.

Lemma idle_social_plan_completes_witness :
  ExecutionPlan.steps
    (PlannerAgent._create_plan Scenario.ascii_lower "task-1" "2026-01-01T00:00:00"
       "Share it on LinkedIn" "social_media" "user-1") = [] /\
  exists t plan',
    ExecutorAgent._execute_plan Scenario.client
      (PlannerAgent._create_plan Scenario.ascii_lower "task-1" "2026-01-01T00:00:00"
         "Share it on LinkedIn" "social_media" "user-1") Scenario.down
    = Some (Ok (TaskResponse.mk "task-1" COMPLETED PyNone None t 0 0, plan'), Scenario.down).
Proof.
  apply (idle_social_plan_completes Scenario.ascii_lower "task-1" "2026-01-01T00:00:00"
           "Share it on LinkedIn" "user-1" Scenario.client Scenario.down).
  - intros H. apply any_word_spec in H. vm_compute in H. discriminate H.
  - intros H. apply any_word_spec in H. vm_compute in H. discriminate H.
Defined.

(** X24.  The result a step returns is what a step depending on it
    receives: when a step completes with a result and the next step, one
    without a script, lists it in [depends_on], the walk leaves both steps
    completed, the first with that result recorded on it and the next with
    a dict that holds the first one's result under [step_<N>_result]. *)
Theorem result_reaches_dependent_step
    (windmill_client : WindmillClient.t) (first second : ExecutionStep.t)
    (rest : list ExecutionStep.t) (l : ExecutorAgent.Locals) (w : World)
    (r : Any) (w1 : World) :
  (forall d, d ∈ ExecutionStep.depends_on first ->
             is_Some (ExecutorAgent.step_results l !! d)) ->
  ExecutorAgent._execute_step windmill_client first (ExecutorAgent.step_results l) w
    = Some (Ok r, w1) ->
  ExecutionStep.script_path second = None ->
  ExecutionStep.step_number first ∈ ExecutionStep.depends_on second ->
  (forall d, d ∈ ExecutionStep.depends_on second ->
             d = ExecutionStep.step_number first \/
             is_Some (ExecutorAgent.step_results l !! d)) ->
  exists (first' second' : ExecutionStep.t) (input : gmap string Any) rest' l' w',
    ExecutorAgent.walk windmill_client (first :: second :: rest) l w
    = Some (Ok (first' :: second' :: rest', l'), w') /\
    ExecutionStep.status first' = COMPLETED /\
    ExecutionStep.result first' = r /\
    ExecutionStep.status second' = COMPLETED /\
    ExecutionStep.result second' = PyDict input /\
    input !! ExecutorAgent.result_key (ExecutionStep.step_number first) = Some r /\
    (forall k, (forall d, d ∈ ExecutionStep.depends_on second ->
                          k <> ExecutorAgent.result_key d) ->
               input !! k = ExecutionStep.input_params second !! k) /\
    same_identity first first' /\
    same_identity second second'.
Proof.
  intros Hdeps1 Hexec Hpath Hin Hdeps2.
  set (results := <[ExecutionStep.step_number first := r]> (ExecutorAgent.step_results l)).
  set (input := ExecutorAgent.prepared_input second results).
  assert (Hmet : forall d, d ∈ ExecutionStep.depends_on second -> is_Some (results !! d)).
  { intros d Hd. unfold results. rewrite lookup_insert. case_decide; [by eexists|].
    destruct (Hdeps2 d Hd) as [->|?]; done. }
  destruct (walk_summary windmill_client rest
              (ExecutorAgent.mkLocals (ExecutorAgent.completed_steps l + 1 + 1)
                 (<[ExecutionStep.step_number second := PyDict input]> results)
                 (PyDict input) (ExecutorAgent.error l)) w1)
    as (rest' & l' & w' & Hrest & _).
  eexists _, _, input, rest', l', w'. split.
  - rewrite walk_cons. unfold ExecutorAgent._check_dependencies.
    rewrite (proj2 (all_present_true _ _) Hdeps1). cbn [negb]. rewrite Hexec.
    rewrite walk_cons. unfold ExecutorAgent._check_dependencies.
    cbn [ExecutorAgent.step_results]. fold results.
    rewrite (proj2 (all_present_true _ _) Hmet). cbn [negb].
    unfold ExecutorAgent._execute_step. rewrite Hpath. cbn [truthy]. unfold ret.
    fold input.
    cbn [ExecutorAgent.completed_steps ExecutorAgent.step_results ExecutorAgent.error].
    rewrite Hrest. reflexivity.
  - split; [reflexivity|]. split; [reflexivity|]. split; [reflexivity|].
    split; [reflexivity|]. split.
    { apply inject_dep; [done|]. unfold results. apply lookup_insert_eq. }
    split.
    { intros k Hk. apply inject_other. intros d Hd _. by apply Hk. }
    split; by repeat split.
Qed.

Lemma result_reaches_dependent_step_witness :
  exists (first' second' : ExecutionStep.t) (input : gmap string Any) rest' l' w',
    ExecutorAgent.walk Scenario.client [Scenario.first; Scenario.prefilled]
      ExecutorAgent.initial Scenario.down
    = Some (Ok (first' :: second' :: rest', l'), w') /\
    ExecutionStep.status first' = COMPLETED /\
    ExecutionStep.result first' = PyDict (<["topic" := PyStr "sales"]> ∅) /\
    ExecutionStep.status second' = COMPLETED /\
    ExecutionStep.result second' = PyDict input /\
    input !! ExecutorAgent.result_key 1 = Some (PyDict (<["topic" := PyStr "sales"]> ∅)) /\
    (forall k, (forall d, d ∈ [1] -> k <> ExecutorAgent.result_key d) ->
               input !! k = ExecutionStep.input_params Scenario.prefilled !! k) /\
    same_identity Scenario.first first' /\
    same_identity Scenario.prefilled second'.
Proof.
  apply (result_reaches_dependent_step Scenario.client Scenario.first Scenario.prefilled
           [] ExecutorAgent.initial Scenario.down
           (PyDict (<["topic" := PyStr "sales"]> ∅)) Scenario.down).
  - intros d Hd. by apply elem_of_nil in Hd.
  - reflexivity.
  - reflexivity.
  - apply list_elem_of_In. simpl. by left.
  - intros d Hd. apply list_elem_of_In in Hd. simpl in Hd. destruct Hd as [<-|[]].
    by left.
Defined.

(** ** The service endpoints *)

(** X25.  [GET /health] answers healthy whatever Windmill does; only the
    windmill component tells: connected exactly when the version endpoint
    answered 200, disconnected on any other status or a network error. *)
Theorem health_endpoint_is_always_healthy
    (windmill_client : WindmillClient.t) (w : World) :
  exists (d components : gmap string Any) (windmill_ok : bool) (w' : World),
    Main.health_check windmill_client w = Some (Ok (PyDict d), w') /\
    d !! "status" = Some (PyStr "healthy") /\
    d !! "components" = Some (PyDict components) /\
    components !! "windmill"
    = Some (PyStr (if windmill_ok then "connected" else "disconnected")) /\
    (windmill_ok = true <->
     exists r, reply (backend w (served w)
                        (GET (WindmillClient.base_url windmill_client +:+ "/api/version") ∅))
               = Answer r /\ status_code r = 200).
Proof.
  unfold Main.health_check, WindmillClient.health_check, bind at 1.
  rewrite (status_call _ (fun c => c =? 200)).
  eexists _, _, _, _. split; [reflexivity|].
  split; [by simplify_map_eq|]. split; [by simplify_map_eq|].
  split; [by simplify_map_eq|].
  destruct (reply _) as [r|msg] eqn:Hr.
  - rewrite Z.eqb_eq. split.
    + intros Hc. by exists r.
    + intros (r' & Hr' & Hc). by simplify_eq.
  - split; [done|]. by intros (r' & Hr' & _).
Qed.

(** X26.  [POST /api/users/{user_id}/workspace] answers success when the
    folder request was answered 200, 201 or 409, and raises the
    [HTTPException] 500 ["Failed to create workspace"] on any other status
    and on a network error, which does not get out as itself. *)
Theorem create_user_workspace_outcome
    (windmill_client : WindmillClient.t) (user_id : string) (w : World) :
  let req :=
    POST (WindmillClient.base_url windmill_client +:+ "/api/w/"
          +:+ WindmillClient.workspace windmill_client +:+ "/folders/create")
      (WindmillClient.headers windmill_client)
      (<["name" := PyStr ("u/" +:+ user_id)]> ∅) in
  let created := exists r, reply (backend w (served w) req) = Answer r /\
                   (status_code r = 200 \/ status_code r = 201 \/ status_code r = 409) in
  exists out,
    Main.create_user_workspace windmill_client user_id w = Some (Ok out, answered req w) /\
    ((created /\
      out = inl (PyDict (<["status" := PyStr "success"]>
                           (<["message" := PyStr ("Workspace created for user "
                                                  +:+ user_id)]> ∅))))
     \/
     (~ created /\
      out = inr (Main.mkHTTPException 500 "Failed to create workspace"))).
Proof.
  intros req created.
  unfold Main.create_user_workspace, WindmillClient.create_user_folder, bind at 1.
  rewrite (status_call _ (fun c => WindmillClient.status_in c [200; 201; 409])).
  fold req.
  destruct (reply (backend w (served w) req)) as [r|msg] eqn:Hr.
  - destruct (WindmillClient.status_in (status_code r) [200; 201; 409]) eqn:Hin.
    + eexists. split; [reflexivity|]. left. split; [|done].
      apply status_in_spec in Hin. rewrite !elem_of_cons, elem_of_nil in Hin.
      exists r. unfold created. split; [done | tauto].
    + eexists. split; [reflexivity|]. right. split; [|done].
      intros (r' & Hr' & Hc). simplify_eq.
      assert (WindmillClient.status_in (status_code r') [200; 201; 409] = true) as Hyes.
      { apply status_in_spec. rewrite !elem_of_cons, elem_of_nil. tauto. }
      congruence.
  - eexists. split; [reflexivity|]. right. split; [|done].
    intros (r' & Hr' & _). discriminate Hr'.
Qed.
